(** * The Frigidaire climate entity

    A shallow embedding of [custom_components/frigidaire/climate.py]: the
    translation tables between the vocabulary of the [frigidaire] client
    package and the host platform's climate vocabulary, the read accessors of
    [FrigidaireClimate], its three command methods and [update].

    Python values are an inductive type, dictionaries are finite maps, and the
    methods run in a small state-and-exception monad whose state holds the
    entity's attributes, the requests received by the client and the records
    emitted on the module logger. *)

From Stdlib Require Import ZArith Floats.SpecFloat.
From stdpp Require Import base decidable countable gmap strings pretty.

Local Open Scope Z_scope.
Local Open Scope string_scope.

(** ** Python values *)

(** The enumerations of the [frigidaire] package that the module names.  Their
    members are opaque tokens: only the members' identity matters here. *)
Module frigidaire.

Module Unit.
Inductive t := FAHRENHEIT | CELSIUS.
#[global] Instance Unit_eq_dec : EqDecision t.
Proof. solve_decision. Defined.
#[global] Instance Unit_countable : Countable t.
Proof.
  refine (inj_countable' (λ u, match u with FAHRENHEIT => 0%nat | CELSIUS => 1%nat end)
            (λ n, match n with O => FAHRENHEIT | _ => CELSIUS end) _).
  by intros [].
Defined.
End Unit.

Module Mode.
Inductive t := OFF | COOL | FAN | ECO.
#[global] Instance Mode_eq_dec : EqDecision t.
Proof. solve_decision. Defined.
#[global] Instance Mode_countable : Countable t.
Proof.
  refine (inj_countable'
            (λ m, match m with OFF => 0%nat | COOL => 1%nat | FAN => 2%nat | ECO => 3%nat end)
            (λ n, match n with
                  | 0%nat => OFF | 1%nat => COOL | 2%nat => FAN | _ => ECO end) _).
  by intros [].
Defined.
End Mode.

Module FanSpeed.
Inductive t := AUTO | LOW | MEDIUM | HIGH.
#[global] Instance FanSpeed_eq_dec : EqDecision t.
Proof. solve_decision. Defined.
#[global] Instance FanSpeed_countable : Countable t.
Proof.
  refine (inj_countable'
            (λ m, match m with AUTO => 0%nat | LOW => 1%nat | MEDIUM => 2%nat | HIGH => 3%nat end)
            (λ n, match n with
                  | 0%nat => AUTO | 1%nat => LOW | 2%nat => MEDIUM | _ => HIGH end) _).
  by intros [].
Defined.
End FanSpeed.

Module Power.
Inductive t := OFF | ON.
#[global] Instance Power_eq_dec : EqDecision t.
Proof. solve_decision. Defined.
End Power.

(** The keys of the details mapping that the module reads through
    [frigidaire.Detail]. *)
Module Detail.
Inductive t :=
| TEMPERATURE_REPRESENTATION
| TARGET_TEMPERATURE_F
| TARGET_TEMPERATURE_C
| MODE
| AMBIENT_TEMPERATURE_F
| AMBIENT_TEMPERATURE_C
| FAN_SPEED
| FILTER_STATE.
#[global] Instance Detail_eq_dec : EqDecision t.
Proof. solve_decision. Defined.
Definition code (d : t) : nat :=
  match d with
  | TEMPERATURE_REPRESENTATION => 0 | TARGET_TEMPERATURE_F => 1
  | TARGET_TEMPERATURE_C => 2 | MODE => 3 | AMBIENT_TEMPERATURE_F => 4
  | AMBIENT_TEMPERATURE_C => 5 | FAN_SPEED => 6 | FILTER_STATE => 7
  end%nat.
Definition of_code (n : nat) : t :=
  match n with
  | 0 => TEMPERATURE_REPRESENTATION | 1 => TARGET_TEMPERATURE_F
  | 2 => TARGET_TEMPERATURE_C | 3 => MODE | 4 => AMBIENT_TEMPERATURE_F
  | 5 => AMBIENT_TEMPERATURE_C | 6 => FAN_SPEED | _ => FILTER_STATE
  end%nat.
#[global] Instance Detail_countable : Countable t.
Proof. refine (inj_countable' code of_code _). by intros []. Defined.
End Detail.

End frigidaire.

#[global] Instance spec_float_eq_dec : EqDecision spec_float.
Proof. solve_decision. Defined.

#[global] Instance spec_float_countable : Countable spec_float.
Proof.
  refine (inj_countable'
            (λ f, match f with
                  | S754_zero s => inl (inl s)
                  | S754_infinity s => inl (inr s)
                  | S754_nan => inr (inl ())
                  | S754_finite s m e => inr (inr (s, m, e))
                  end)
            (λ c, match c with
                  | inl (inl s) => S754_zero s
                  | inl (inr s) => S754_infinity s
                  | inr (inl _) => S754_nan
                  | inr (inr (s, m, e)) => S754_finite s m e
                  end) _).
  by intros [].
Defined.

(** Numbers: integers, and floats as binary64 data (sign, mantissa, exponent). *)
Inductive number :=
| Int (z : Z)
| Float (f : spec_float).

#[global] Instance number_eq_dec : EqDecision number.
Proof. solve_decision. Defined.

#[global] Instance number_countable : Countable number.
Proof.
  refine (inj_countable'
            (λ n, match n with Int z => inl z | Float f => inr f end)
            (λ c, match c with inl z => Int z | inr f => Float f end) _).
  by intros [].
Defined.

(** The Python objects that flow through the module: [None], booleans,
    numbers, strings and members of the client package's enumerations.

    Every [==] and every table lookup of the module has a string or an
    enumeration member on one side; on these, equality of Python objects is
    equality of the terms below. *)
Inductive value :=
| PyNone
| Bool (b : bool)
| Num (n : number)
| Str (s : string)
| UnitMember (u : frigidaire.Unit.t)
| ModeMember (m : frigidaire.Mode.t)
| FanSpeedMember (s : frigidaire.FanSpeed.t).

Coercion Num : number >-> value.

#[global] Instance value_eq_dec : EqDecision value.
Proof. solve_decision. Defined.

#[global] Instance value_countable : Countable value.
Proof.
  refine (inj_countable'
            (λ v, match v with
                  | PyNone => inl (inl (inl ()))
                  | Bool b => inl (inl (inr b))
                  | Num n => inl (inr n)
                  | Str s => inr (inl (inl s))
                  | UnitMember u => inr (inl (inr u))
                  | ModeMember m => inr (inr (inl m))
                  | FanSpeedMember s => inr (inr (inr s))
                  end)
            (λ c, match c with
                  | inl (inl (inl _)) => PyNone
                  | inl (inl (inr b)) => Bool b
                  | inl (inr n) => Num n
                  | inr (inl (inl s)) => Str s
                  | inr (inl (inr u)) => UnitMember u
                  | inr (inr (inl m)) => ModeMember m
                  | inr (inr (inr s)) => FanSpeedMember s
                  end) _).
  by intros [].
Defined.

(** Truth value of an object, as [not x] and [if x] use it. *)
Definition truthy (v : value) : bool :=
  match v with
  | PyNone => false
  | Bool b => b
  | Num (Int z) => negb (Z.eqb z 0)
  | Num (Float (S754_zero _)) => false
  | Num (Float _) => true
  | Str s => negb (String.eqb s "")
  | UnitMember _ | ModeMember _ | FanSpeedMember _ => true
  end.

(** A key of the details mapping: a member of [frigidaire.Detail] or a plain
    string. *)
Inductive key :=
| DetailKey (d : frigidaire.Detail.t)
| StrKey (s : string).

Coercion DetailKey : frigidaire.Detail.t >-> key.
Coercion StrKey : string >-> key.

#[global] Instance key_eq_dec : EqDecision key.
Proof. solve_decision. Defined.

#[global] Instance key_countable : Countable key.
Proof.
  refine (inj_countable'
            (λ k, match k with DetailKey d => inl d | StrKey s => inr s end)
            (λ c, match c with inl d => DetailKey d | inr s => StrKey s end) _).
  by intros [].
Defined.

(** [d.get(k)]: the entry under [k], or [None] when there is none. *)
Definition dict_get (d : gmap key value) (k : key) : value :=
  default PyNone (d !! k).

(** ** Constants of the host platform *)

Definition TEMP_FAHRENHEIT : string := "°F".
Definition TEMP_CELSIUS : string := "°C".

Definition FAN_AUTO : string := "auto".
Definition FAN_LOW : string := "low".
Definition FAN_MEDIUM : string := "medium".
Definition FAN_HIGH : string := "high".
Definition FAN_OFF : string := "off".

Definition HVAC_MODE_OFF : string := "off".
Definition HVAC_MODE_COOL : string := "cool".
Definition HVAC_MODE_AUTO : string := "auto".
Definition HVAC_MODE_FAN_ONLY : string := "fan_only".

Definition ATTR_TEMPERATURE : string := "temperature".

(** ** Translation tables *)

Import frigidaire.

Definition FRIGIDAIRE_TO_HA_UNIT : gmap value string :=
  {[ UnitMember Unit.FAHRENHEIT := TEMP_FAHRENHEIT;
     UnitMember Unit.CELSIUS := TEMP_CELSIUS ]}.

Definition FRIGIDAIRE_TO_HA_MODE : gmap value string :=
  {[ ModeMember Mode.OFF := HVAC_MODE_OFF;
     ModeMember Mode.COOL := HVAC_MODE_COOL;
     ModeMember Mode.FAN := HVAC_MODE_FAN_ONLY;
     ModeMember Mode.ECO := HVAC_MODE_AUTO ]}.

Definition FRIGIDAIRE_TO_HA_FAN_SPEED : gmap value string :=
  {[ FanSpeedMember FanSpeed.AUTO := FAN_AUTO;
     FanSpeedMember FanSpeed.LOW := FAN_LOW;
     FanSpeedMember FanSpeed.MEDIUM := FAN_MEDIUM;
     FanSpeedMember FanSpeed.HIGH := FAN_HIGH ]}.

Definition HA_TO_FRIGIDAIRE_FAN_MODE : gmap value FanSpeed.t :=
  {[ Str FAN_AUTO := FanSpeed.AUTO;
     Str FAN_LOW := FanSpeed.LOW;
     Str FAN_MEDIUM := FanSpeed.MEDIUM;
     Str FAN_HIGH := FanSpeed.HIGH ]}.

Definition HA_TO_FRIGIDAIRE_HVAC_MODE : gmap value Mode.t :=
  {[ Str HVAC_MODE_AUTO := Mode.ECO;
     Str HVAC_MODE_FAN_ONLY := Mode.FAN;
     Str HVAC_MODE_COOL := Mode.COOL;
     Str HVAC_MODE_OFF := Mode.OFF ]}.

(** ** Exceptions and results *)

Inductive exn :=
| KeyError (k : value)
| AttributeError
| ValueError
| OverflowError
| FrigidaireException.

#[global] Instance exn_eq_dec : EqDecision exn.
Proof. solve_decision. Defined.

(** The outcome of evaluating an expression: a value, or a raised exception. *)
Inductive result (A : Type) :=
| Ok (a : A)
| Raise (e : exn).

Arguments Ok {A} a.
Arguments Raise {A} e.

#[global] Instance result_ret : MRet result := λ A a, Ok a.

#[global] Instance result_bind : MBind result := λ A B f r,
  match r with
  | Ok a => f a
  | Raise e => Raise e
  end.

(** [table[k]] *)
Definition subscript {V : Type} (table : gmap value V) (k : value) : result V :=
  match table !! k with
  | Some v => Ok v
  | None => Raise (KeyError k)
  end.

(** [int(x)] on a number: an integer is itself; a finite float is cut towards
    zero; a NaN raises [ValueError] and an infinity [OverflowError]. *)
Definition py_int (x : number) : result Z :=
  match x with
  | Int z => Ok z
  | Float (S754_zero _) => Ok 0
  | Float (S754_finite s m e) =>
      let a := Z.shiftl (Z.pos m) e in
      Ok (if s then - a else a)
  | Float (S754_infinity _) => Raise OverflowError
  | Float S754_nan => Raise ValueError
  end.

(** ** The client *)

Module Action.
Inductive t :=
| set_power (p : Power.t)
| set_temperature_f (temperature : Z)
| set_temperature_c (temperature : Z)
| set_temperature (temperature : value)
| set_fan_speed (s : FanSpeed.t)
| set_mode (m : Mode.t).
#[global] Instance Action_eq_dec : EqDecision t.
Proof. solve_decision. Defined.
End Action.

Record Appliance := {
  appliance_id : string;
  nickname : string;
}.

(** A request made of the client. *)
Inductive Request :=
| GetApplianceDetails (appliance : Appliance)
| ExecuteAction (appliance : Appliance) (action : Action.t).

(** The client is the collaborator behind [self._client].  Its answer to a
    request may depend on the requests it has served before; it answers with a
    result, or raises ([FrigidaireException] when the service is unreachable
    or rejects the request). *)
Record Frigidaire := {
  get_appliance_details : list Request → Appliance → result (gmap key value);
  execute_action : list Request → Appliance → Action.t → result ();
}.

(** ** The entity *)

(** The attributes of a [FrigidaireClimate] that its methods read or write
    after construction.  The constant [_attr_*] attributes set by the
    constructor (identifier, name, supported features, step, mode lists) play
    no part in the methods below and are left out. *)
Record FrigidaireClimate := {
  _client : Frigidaire;
  _appliance : Appliance;
  _details : option (gmap key value);
  _attr_available : bool;
}.

(** The constructor leaves [_details] unset; [_attr_available] starts at the
    default of the host's entity class, [True]. *)
Definition __init__ (client : Frigidaire) (appliance : Appliance) : FrigidaireClimate :=
  {| _client := client;
     _appliance := appliance;
     _details := None;
     _attr_available := true |}.

(** [self.available], the host's entity property: it reads [_attr_available]. *)
Definition available (self : FrigidaireClimate) : bool := _attr_available self.

(** [self._details.get(k)]; an unset [_details] has no [get]. *)
Definition details_get (self : FrigidaireClimate) (k : key) : result value :=
  match _details self with
  | Some d => Ok (dict_get d k)
  | None => Raise AttributeError
  end.

(** *** Read accessors *)

Definition temperature_unit (self : FrigidaireClimate) : result string :=
  unit ← details_get self Detail.TEMPERATURE_REPRESENTATION;
  subscript FRIGIDAIRE_TO_HA_UNIT unit.

Definition target_temperature (self : FrigidaireClimate) : result value :=
  unit ← temperature_unit self;
  if bool_decide (unit = TEMP_FAHRENHEIT)
  then details_get self Detail.TARGET_TEMPERATURE_F
  else details_get self Detail.TARGET_TEMPERATURE_C.

Definition hvac_mode (self : FrigidaireClimate) : result string :=
  frigidaire_mode ← details_get self Detail.MODE;
  subscript FRIGIDAIRE_TO_HA_MODE frigidaire_mode.

Definition current_temperature (self : FrigidaireClimate) : result value :=
  unit ← temperature_unit self;
  if bool_decide (unit = TEMP_FAHRENHEIT)
  then details_get self Detail.AMBIENT_TEMPERATURE_F
  else details_get self Detail.AMBIENT_TEMPERATURE_C.

Definition fan_mode (self : FrigidaireClimate) : result string :=
  fan_speed ← details_get self Detail.FAN_SPEED;
  if negb (truthy fan_speed)
  then mret FAN_OFF
  else subscript FRIGIDAIRE_TO_HA_FAN_SPEED fan_speed.

Definition min_temp (self : FrigidaireClimate) : result Z :=
  unit ← temperature_unit self;
  if bool_decide (unit = TEMP_FAHRENHEIT) then mret 60 else mret 16.

Definition max_temp (self : FrigidaireClimate) : result Z :=
  unit ← temperature_unit self;
  if bool_decide (unit = TEMP_FAHRENHEIT) then mret 90 else mret 32.

Definition extra_state_attributes (self : FrigidaireClimate) : result (gmap string value) :=
  filter_state ← details_get self Detail.FILTER_STATE;
  mret {[ "check_filter" := Bool (bool_decide (filter_state = Str "CHANGE")) ]}.

(** ** The state-and-exception monad of the methods *)

Inductive Level := ERROR | DEBUG.

#[global] Instance Level_eq_dec : EqDecision Level.
Proof. solve_decision. Defined.

(** What a method can change: the entity's attributes, the requests the
    client has received (oldest first) and the records emitted on [_LOGGER]
    (oldest first). *)
Record World := {
  self : FrigidaireClimate;
  requests : list Request;
  records : list (Level * string);
}.

(** A computation returns or raises, and leaves a world either way: what was
    done before an exception is not undone. *)
Definition M (A : Type) : Type := World → result A * World.

#[global] Instance M_ret : MRet M := λ A a w, (Ok a, w).

#[global] Instance M_bind : MBind M := λ A B f m w,
  match m w with
  | (Ok a, w') => f a w'
  | (Raise e, w') => (Raise e, w')
  end.

Definition lift {A : Type} (r : result A) : M A := λ w, (r, w).

Definition get_self : M FrigidaireClimate := λ w, (Ok (self w), w).

Definition set_details (d : option (gmap key value)) : M () := λ w,
  (Ok (),
   {| self := {| _client := _client (self w);
                 _appliance := _appliance (self w);
                 _details := d;
                 _attr_available := _attr_available (self w) |};
      requests := requests w;
      records := records w |}).

Definition set_attr_available (b : bool) : M () := λ w,
  (Ok (),
   {| self := {| _client := _client (self w);
                 _appliance := _appliance (self w);
                 _details := _details (self w);
                 _attr_available := b |};
      requests := requests w;
      records := records w |}).

Definition emit (level : Level) (msg : string) : M () := λ w,
  (Ok (),
   {| self := self w;
      requests := requests w;
      records := records w ++ [(level, msg)] |}).

(** [client.get_appliance_details(appliance)]: the request reaches the client,
    which answers from what it has served so far. *)
Definition call_get_appliance_details (client : Frigidaire) (appliance : Appliance)
  : M (gmap key value) := λ w,
  (get_appliance_details client (requests w) appliance,
   {| self := self w;
      requests := requests w ++ [GetApplianceDetails appliance];
      records := records w |}).

(** [client.execute_action(appliance, action)] *)
Definition call_execute_action (client : Frigidaire) (appliance : Appliance)
    (action : Action.t) : M () := λ w,
  (execute_action client (requests w) appliance action,
   {| self := self w;
      requests := requests w ++ [ExecuteAction appliance action];
      records := records w |}).

(** [try: body / except cls: handler / else: orelse], with [catches] telling
    the exceptions of class [cls]. *)
Definition try_except_else {A : Type} (body : M ()) (catches : exn → bool)
    (handler : M A) (orelse : M A) : M A := λ w,
  match body w with
  | (Ok _, w') => orelse w'
  | (Raise e, w') => if catches e then handler w' else (Raise e, w')
  end.

(** ** Commands *)

(** The keyword arguments of [set_temperature]: the host passes numbers, or
    [None] for an entry it leaves unset. *)
Definition kwargs_get (kwargs : gmap string (option number)) (k : string) : option number :=
  default None (kwargs !! k).

Definition set_temperature (kwargs : gmap string (option number)) : M () :=
  let temperature := kwargs_get kwargs ATTR_TEMPERATURE in
  match temperature with
  | None => mret ()
  | Some temperature =>
      temperature ← lift (py_int temperature);
      self ← get_self;
      unit ← lift (temperature_unit self);
      action ←
        (if bool_decide (unit = TEMP_FAHRENHEIT) then
           let action := Action.set_temperature_f temperature in
           emit DEBUG ("Setting temperature to int(" ++ pretty temperature
                         ++ ") via set_temperature_f");;
           mret action
         else
           let action := Action.set_temperature_c temperature in
           emit DEBUG ("Setting temperature to int(" ++ pretty temperature
                         ++ ") via set_temperature_c");;
           mret action);
      call_execute_action (_client self) (_appliance self) action
  end.

Definition set_fan_mode (fan_mode : value) : M () :=
  match HA_TO_FRIGIDAIRE_FAN_MODE !! fan_mode with
  | None => mret ()
  | Some speed =>
      self ← get_self;
      call_execute_action (_client self) (_appliance self) (Action.set_fan_speed speed)
  end.

Definition set_hvac_mode (hvac_mode : value) : M () :=
  if bool_decide (hvac_mode = Str HVAC_MODE_OFF) then
    self ← get_self;
    call_execute_action (_client self) (_appliance self) (Action.set_power Power.OFF)
  else
    match HA_TO_FRIGIDAIRE_HVAC_MODE !! hvac_mode with
    | None => mret ()
    | Some mode =>
        self ← get_self;
        current ← lift (details_get self Detail.MODE);
        (if bool_decide (current = ModeMember Mode.OFF) then
           call_execute_action (_client self) (_appliance self) (Action.set_power Power.ON);;
           temperature ← lift (target_temperature self);
           call_execute_action (_client self) (_appliance self)
             (Action.set_temperature temperature)
         else mret ());;
        call_execute_action (_client self) (_appliance self) (Action.set_mode mode)
    end.

(** ** Polling *)

Definition update : M () :=
  try_except_else
    (self ← get_self;
     details ← call_get_appliance_details (_client self) (_appliance self);
     set_details (Some details))
    (λ e, bool_decide (e = FrigidaireException))
    (self ← get_self;
     (if available self
      then emit ERROR "Failed to connect to Frigidaire servers"
      else mret ());;
     set_attr_available false)
    (self ← get_self;
     state ← lift (details_get self "connectivityState");
     set_attr_available (bool_decide (state = Str "connected"))).

(** ** Observations and sample data *)

(** The host polling [n] times in a row. *)
Fixpoint poll (n : nat) : M () :=
  match n with
  | O => mret ()
  | S n => update;; poll n
  end.

(** The exact value of a finite number, as a numerator and a positive
    denominator; [None] for a NaN or an infinity. *)
Definition fraction (x : number) : option (Z * Z) :=
  match x with
  | Int z => Some (z, 1)
  | Float (S754_zero _) => Some (0, 1)
  | Float (S754_finite s m e) =>
      let n := Z.pos m * 2 ^ Z.max e 0 in
      Some (if s then - n else n, 2 ^ Z.max (- e) 0)
  | Float (S754_infinity _) | Float S754_nan => None
  end.

(** What the read accessors return, taken together. *)
Definition readings (self : FrigidaireClimate) :=
  (temperature_unit self, target_temperature self, hvac_mode self,
   current_temperature self, fan_mode self, min_temp self, max_temp self,
   extra_state_attributes self).

(** The world [w] after the requests [rs] have reached the client and nothing
    else has changed. *)
Definition sent (w : World) (rs : list Request) : World :=
  {| self := self w; requests := requests w ++ rs; records := records w |}.

(** A client that accepts every action. *)
Definition accepting (client : Frigidaire) : Prop :=
  ∀ history appliance action, execute_action client history appliance action = Ok ().

(** A living-room unit, switched off, set to 72 °F. *)
Definition sample_details : gmap key value :=
  {[ DetailKey Detail.TEMPERATURE_REPRESENTATION := UnitMember Unit.FAHRENHEIT;
     DetailKey Detail.TARGET_TEMPERATURE_F := Num (Int 72);
     DetailKey Detail.TARGET_TEMPERATURE_C := Num (Int 22);
     DetailKey Detail.AMBIENT_TEMPERATURE_F := Num (Int 75);
     DetailKey Detail.AMBIENT_TEMPERATURE_C := Num (Int 24);
     DetailKey Detail.MODE := ModeMember Mode.OFF;
     DetailKey Detail.FAN_SPEED := FanSpeedMember FanSpeed.LOW;
     DetailKey Detail.FILTER_STATE := Str "OK";
     StrKey "connectivityState" := Str "connected" ]}.

Definition reachable : Frigidaire :=
  {| get_appliance_details := λ _ _, Ok sample_details;
     execute_action := λ _ _ _, Ok () |}.

Definition unreachable : Frigidaire :=
  {| get_appliance_details := λ _ _, Raise FrigidaireException;
     execute_action := λ _ _ _, Raise FrigidaireException |}.

Definition living_room : Appliance :=
  {| appliance_id := "4A2B"; nickname := "Living room" |}.

(** An entity of [client] holding the snapshot [d], before any request. *)
Definition world_of (client : Frigidaire) (d : option (gmap key value)) (ok : bool) : World :=
  {| self := {| _client := client; _appliance := living_room;
                _details := d; _attr_available := ok |};
     requests := [];
     records := [] |}.

(** ** Constructor attributes *)

Definition SUPPORT_TARGET_TEMPERATURE : Z := 1.
Definition SUPPORT_FAN_MODE : Z := 8.

(** The [_attr_*] attributes that the constructor sets and no method assigns
    again. *)
Record Attributes := {
  _attr_unique_id : string;
  _attr_name : string;
  _attr_supported_features : Z;
  _attr_target_temperature_step : Z;
  _attr_assumed_state : bool;
  _attr_fan_modes : list string;
  _attr_hvac_modes : list string;
}.

(** The part of the constructor that fills them in. *)
Definition init_attributes (appliance : Appliance) : Attributes :=
  {| _attr_unique_id := appliance_id appliance;
     _attr_name := nickname appliance;
     _attr_supported_features := Z.lor SUPPORT_TARGET_TEMPERATURE SUPPORT_FAN_MODE;
     _attr_target_temperature_step := 1;
     _attr_assumed_state := true;
     _attr_fan_modes := [FAN_AUTO; FAN_LOW; FAN_MEDIUM; FAN_HIGH];
     _attr_hvac_modes := [HVAC_MODE_OFF; HVAC_MODE_COOL; HVAC_MODE_AUTO; HVAC_MODE_FAN_ONLY] |}.

Definition assumed_state (attrs : Attributes) : bool := _attr_assumed_state attrs.
Definition unique_id (attrs : Attributes) : string := _attr_unique_id attrs.
Definition name (attrs : Attributes) : string := _attr_name attrs.
Definition supported_features (attrs : Attributes) : Z := _attr_supported_features attrs.
Definition hvac_modes (attrs : Attributes) : list string := _attr_hvac_modes attrs.
Definition target_temperature_step (attrs : Attributes) : Z :=
  _attr_target_temperature_step attrs.
Definition fan_modes (attrs : Attributes) : list string := _attr_fan_modes attrs.

(** ** Set-up from a config entry *)

Module Destination.
Inductive t :=
| AIR_CONDITIONER
| OTHER (code : string).
#[global] Instance Destination_eq_dec : EqDecision t.
Proof. solve_decision. Defined.
End Destination.

(** An appliance as [get_appliances] lists it: the fields the entity keeps,
    and its destination. *)
Record Listed := {
  identity : Appliance;
  destination : Destination.t;
}.

Record ConfigEntry := {
  entry_id : string;
  data : gmap string value;
}.

(** [d[k]] on a mapping with string keys. *)
Definition subscript_str {V : Type} (d : gmap string V) (k : string) : result V :=
  match d !! k with
  | Some v => Ok v
  | None => Raise (KeyError (Str k))
  end.

Section setup.

(** The integration's domain name, a constant of the package's [const]
    module. *)
Variable DOMAIN : string.

(** [async_setup_entry], as the list of entities it hands to
    [async_add_entities] (with [update_before_add] set).  [hass_data] is
    [hass.data], and [listing] is what the client answers to
    [get_appliances]. *)
Definition async_setup_entry (hass_data : gmap string (gmap string Frigidaire))
    (entry : ConfigEntry) (listing : result (list Listed))
  : result (list FrigidaireClimate) :=
  domain_data ← subscript_str hass_data DOMAIN;
  client ← subscript_str domain_data (entry_id entry);
  let get_entities := λ (username password : value), listing in
  username ← subscript_str (data entry) "username";
  password ← subscript_str (data entry) "password";
  get_entities username password ≫= λ appliances : list Listed,
  mret ((λ appliance, __init__ client (identity appliance)) <$>
          filter (λ appliance, destination appliance = Destination.AIR_CONDITIONER)
            appliances).

End setup.

(** A dehumidifier and the credentials of a sample entry. *)
Definition basement : Appliance :=
  {| appliance_id := "77C0"; nickname := "Basement" |}.

Definition sample_entry : ConfigEntry :=
  {| entry_id := "e1";
     data := {[ "username" := Str "user@example.org"; "password" := Str "secret" ]} |}.

Definition sample_listing : list Listed :=
  [ {| identity := basement; destination := Destination.OTHER "DH1" |};
    {| identity := living_room; destination := Destination.AIR_CONDITIONER |} ].

(** * Properties *)

(** ** The tables *)

Lemma HA_TO_FRIGIDAIRE_HVAC_MODE_Some (v : value) (m : Mode.t) :
  HA_TO_FRIGIDAIRE_HVAC_MODE !! v = Some m ↔
    (v = Str "auto" ∧ m = Mode.ECO) ∨ (v = Str "fan_only" ∧ m = Mode.FAN) ∨
    (v = Str "cool" ∧ m = Mode.COOL) ∨ (v = Str "off" ∧ m = Mode.OFF).
Proof.
  unfold HA_TO_FRIGIDAIRE_HVAC_MODE.
  rewrite !lookup_insert_Some, lookup_singleton_Some.
  unfold HVAC_MODE_AUTO, HVAC_MODE_FAN_ONLY, HVAC_MODE_COOL, HVAC_MODE_OFF.
  intuition (subst; try congruence; auto).
Qed.

Lemma HA_TO_FRIGIDAIRE_FAN_MODE_Some (v : value) (s : FanSpeed.t) :
  HA_TO_FRIGIDAIRE_FAN_MODE !! v = Some s ↔
    (v = Str "auto" ∧ s = FanSpeed.AUTO) ∨ (v = Str "low" ∧ s = FanSpeed.LOW) ∨
    (v = Str "medium" ∧ s = FanSpeed.MEDIUM) ∨ (v = Str "high" ∧ s = FanSpeed.HIGH).
Proof.
  unfold HA_TO_FRIGIDAIRE_FAN_MODE.
  rewrite !lookup_insert_Some, lookup_singleton_Some.
  unfold FAN_AUTO, FAN_LOW, FAN_MEDIUM, FAN_HIGH.
  intuition (subst; try congruence; auto).
Qed.

Lemma FRIGIDAIRE_TO_HA_UNIT_Some (v : value) (s : string) :
  FRIGIDAIRE_TO_HA_UNIT !! v = Some s ↔
    (v = UnitMember Unit.FAHRENHEIT ∧ s = TEMP_FAHRENHEIT) ∨
    (v = UnitMember Unit.CELSIUS ∧ s = TEMP_CELSIUS).
Proof.
  unfold FRIGIDAIRE_TO_HA_UNIT.
  rewrite !lookup_insert_Some, lookup_singleton_Some.
  intuition (subst; try congruence; auto).
Qed.

Lemma FRIGIDAIRE_TO_HA_MODE_Some (v : value) (s : string) :
  FRIGIDAIRE_TO_HA_MODE !! v = Some s ↔
    (v = ModeMember Mode.OFF ∧ s = "off") ∨ (v = ModeMember Mode.COOL ∧ s = "cool") ∨
    (v = ModeMember Mode.FAN ∧ s = "fan_only") ∨ (v = ModeMember Mode.ECO ∧ s = "auto").
Proof.
  unfold FRIGIDAIRE_TO_HA_MODE.
  rewrite !lookup_insert_Some, lookup_singleton_Some.
  unfold HVAC_MODE_AUTO, HVAC_MODE_FAN_ONLY, HVAC_MODE_COOL, HVAC_MODE_OFF.
  intuition (subst; try congruence; auto).
Qed.

Lemma FRIGIDAIRE_TO_HA_FAN_SPEED_Some (v : value) (s : string) :
  FRIGIDAIRE_TO_HA_FAN_SPEED !! v = Some s ↔
    (v = FanSpeedMember FanSpeed.AUTO ∧ s = "auto") ∨
    (v = FanSpeedMember FanSpeed.LOW ∧ s = "low") ∨
    (v = FanSpeedMember FanSpeed.MEDIUM ∧ s = "medium") ∨
    (v = FanSpeedMember FanSpeed.HIGH ∧ s = "high").
Proof.
  unfold FRIGIDAIRE_TO_HA_FAN_SPEED.
  rewrite !lookup_insert_Some, lookup_singleton_Some.
  unfold FAN_AUTO, FAN_LOW, FAN_MEDIUM, FAN_HIGH.
  intuition (subst; try congruence; auto).
Qed.

Example table_unit_f : FRIGIDAIRE_TO_HA_UNIT !! UnitMember Unit.FAHRENHEIT = Some "°F".
Proof. reflexivity. Qed.

Example table_mode_eco : FRIGIDAIRE_TO_HA_MODE !! ModeMember Mode.ECO = Some "auto".
Proof. vm_compute. reflexivity. Qed.

Example table_fan_unknown : HA_TO_FRIGIDAIRE_FAN_MODE !! Str "turbo" = None.
Proof. vm_compute. reflexivity. Qed.

(** ** Running the monad *)

Lemma bind_ok {A B : Type} (m : M A) (f : A → M B) (w w' : World) (a : A) :
  m w = (Ok a, w') → (m ≫= f) w = f a w'.
Proof. intros H. unfold mbind, M_bind. by rewrite H. Qed.

Lemma sent_sent (w : World) (rs rs' : list Request) :
  sent (sent w rs) rs' = sent w (rs ++ rs').
Proof. unfold sent. simpl. by rewrite app_assoc. Qed.

Lemma call_execute_action_run (client : Frigidaire) (appliance : Appliance)
    (action : Action.t) (w : World) :
  call_execute_action client appliance action w =
    (execute_action client (requests w) appliance action,
     sent w [ExecuteAction appliance action]).
Proof. reflexivity. Qed.

(** ** set_hvac_mode *)

(** C2: whatever the world before the call, [set_hvac_mode] with the platform's
    off token sends the client exactly one request, [set_power(OFF)], returns
    what the client answers, and so adds no [set_mode] request. *)
Theorem set_hvac_mode_off (w : World) :
  let client := _client (self w) in
  let appliance := _appliance (self w) in
  set_hvac_mode (Str HVAC_MODE_OFF) w =
    (execute_action client (requests w) appliance (Action.set_power Power.OFF),
     sent w [ExecuteAction appliance (Action.set_power Power.OFF)])
  ∧ ∀ a m, ExecuteAction a (Action.set_mode m) ∈ requests (set_hvac_mode (Str HVAC_MODE_OFF) w).2 →
           ExecuteAction a (Action.set_mode m) ∈ requests w.
Proof.
  intros client appliance.
  assert (Hrun : set_hvac_mode (Str HVAC_MODE_OFF) w =
    (execute_action client (requests w) appliance (Action.set_power Power.OFF),
     sent w [ExecuteAction appliance (Action.set_power Power.OFF)])).
  { unfold set_hvac_mode. rewrite bool_decide_eq_true_2 by done. reflexivity. }
  split; [exact Hrun|].
  intros a m. rewrite Hrun. simpl.
  rewrite elem_of_app, list_elem_of_singleton. intros [H|H]; [done|discriminate].
Qed.

Lemma recognized_non_off (hvac_mode : value) (mode : Mode.t) :
  HA_TO_FRIGIDAIRE_HVAC_MODE !! hvac_mode = Some mode →
  hvac_mode ≠ Str HVAC_MODE_OFF →
  hvac_mode ∈ [Str HVAC_MODE_COOL; Str HVAC_MODE_AUTO; Str HVAC_MODE_FAN_ONLY].
Proof.
  rewrite HA_TO_FRIGIDAIRE_HVAC_MODE_Some.
  intros [[-> _]|[[-> _]|[[-> _]|[-> _]]]] Hoff;
    rewrite !elem_of_cons; auto.
  by destruct Hoff.
Qed.

(** C1: for a recognized mode other than off, on a client that accepts the
    actions: when the snapshot's mode is off, [set_hvac_mode] sends exactly
    [set_power(ON)], [set_temperature] with the target temperature read from
    the snapshot held before the call, and [set_mode] with the translated
    mode, in that order; when the snapshot's mode is not off it sends exactly
    [set_mode] with the translated mode. *)
Theorem set_hvac_mode_on_sequence (hvac_mode : value) (mode : Mode.t) (w : World)
    (d : gmap key value) :
  HA_TO_FRIGIDAIRE_HVAC_MODE !! hvac_mode = Some mode →
  hvac_mode ≠ Str HVAC_MODE_OFF →
  _details (self w) = Some d →
  accepting (_client (self w)) →
  let appliance := _appliance (self w) in
  hvac_mode ∈ [Str HVAC_MODE_COOL; Str HVAC_MODE_AUTO; Str HVAC_MODE_FAN_ONLY]
  ∧ (dict_get d Detail.MODE = ModeMember Mode.OFF →
     ∀ temperature, target_temperature (self w) = Ok temperature →
       set_hvac_mode hvac_mode w =
         (Ok (), sent w [ExecuteAction appliance (Action.set_power Power.ON);
                         ExecuteAction appliance (Action.set_temperature temperature);
                         ExecuteAction appliance (Action.set_mode mode)]))
  ∧ (dict_get d Detail.MODE ≠ ModeMember Mode.OFF →
       set_hvac_mode hvac_mode w =
         (Ok (), sent w [ExecuteAction appliance (Action.set_mode mode)])).
Proof.
  intros Hmode Hoff Hd Hacc appliance.
  split; [by eapply recognized_non_off|].
  unfold set_hvac_mode.
  rewrite bool_decide_eq_false_2 by done. rewrite Hmode.
  unfold mbind, M_bind, get_self, lift, details_get. rewrite Hd.
  split.
  - intros Hcur temperature Htemp.
    rewrite bool_decide_eq_true_2 by done.
    repeat (rewrite call_execute_action_run, Hacc).
    rewrite Htemp.
    repeat (rewrite call_execute_action_run, Hacc).
    by rewrite !sent_sent.
  - intros Hcur.
    rewrite bool_decide_eq_false_2 by done.
    unfold mret, M_ret.
    by rewrite !call_execute_action_run, !Hacc.
Qed.

Lemma set_hvac_mode_on_sequence_witness :
  set_hvac_mode (Str "cool") (world_of reachable (Some sample_details) true) =
    (Ok (), sent (world_of reachable (Some sample_details) true)
              [ExecuteAction living_room (Action.set_power Power.ON);
               ExecuteAction living_room (Action.set_temperature (Num (Int 72)));
               ExecuteAction living_room (Action.set_mode Mode.COOL)]).
Proof.
  refine (proj1 (proj2 (set_hvac_mode_on_sequence (Str "cool") Mode.COOL
            (world_of reachable (Some sample_details) true) sample_details
            _ _ _ _)) _ (Num (Int 72)) _).
  - vm_compute. reflexivity.
  - discriminate.
  - reflexivity.
  - intros history appliance action. reflexivity.
  - vm_compute. reflexivity.
  - vm_compute. reflexivity.
Defined.

(** ** update *)

Lemma update_failure (w : World) :
  get_appliance_details (_client (self w)) (requests w) (_appliance (self w))
    = Raise FrigidaireException →
  update w =
    (Ok (),
     {| self := {| _client := _client (self w);
                   _appliance := _appliance (self w);
                   _details := _details (self w);
                   _attr_available := false |};
        requests := requests w ++ [GetApplianceDetails (_appliance (self w))];
        records := records w ++
                   (if available (self w)
                    then [(ERROR, "Failed to connect to Frigidaire servers")]
                    else []) |}).
Proof.
  intros Hget.
  unfold update, try_except_else, mbind, M_bind, get_self, call_get_appliance_details.
  rewrite Hget. simpl.
  destruct (available (self w)); simpl; [done|].
  by rewrite app_nil_r.
Qed.

Lemma update_success (w : World) (d : gmap key value) :
  get_appliance_details (_client (self w)) (requests w) (_appliance (self w)) = Ok d →
  update w =
    (Ok (),
     {| self := {| _client := _client (self w);
                   _appliance := _appliance (self w);
                   _details := Some d;
                   _attr_available :=
                     bool_decide (dict_get d "connectivityState" = Str "connected") |};
        requests := requests w ++ [GetApplianceDetails (_appliance (self w))];
        records := records w |}).
Proof.
  intros Hget.
  unfold update, try_except_else, mbind, M_bind, get_self, call_get_appliance_details.
  rewrite Hget. reflexivity.
Qed.

(** C3: when the client raises its exception on two polls in a row, both
    calls of [update] return normally and leave [_attr_available] false; the
    first emits the error record exactly when the entity was available before
    it, and the second emits nothing. *)
Theorem update_failure_logs_once (w : World) :
  let client := _client (self w) in
  let appliance := _appliance (self w) in
  get_appliance_details client (requests w) appliance = Raise FrigidaireException →
  get_appliance_details client (requests w ++ [GetApplianceDetails appliance]) appliance
    = Raise FrigidaireException →
  let w1 := (update w).2 in
  let w2 := (update w1).2 in
  (update w).1 = Ok () ∧ (update w1).1 = Ok ()
  ∧ _attr_available (self w1) = false ∧ _attr_available (self w2) = false
  ∧ records w1 = (records w ++
                  if available (self w)
                  then [(ERROR, "Failed to connect to Frigidaire servers")]
                  else [])%list
  ∧ records w2 = records w1.
Proof.
  intros client appliance H1 H2 w1 w2.
  pose proof (update_failure w H1) as Hu1.
  assert (Hu2 := update_failure w1). subst w2.
  unfold w1 in *. rewrite Hu1 in *. simpl in *.
  specialize (Hu2 H2). rewrite Hu2. simpl.
  by rewrite app_nil_r.
Qed.

Lemma update_failure_logs_once_witness :
  let w := world_of unreachable (Some sample_details) true in
  records (update w).2 = [(ERROR, "Failed to connect to Frigidaire servers")]
  ∧ records (update (update w).2).2 = records (update w).2.
Proof.
  intros w.
  destruct (update_failure_logs_once w) as (_ & _ & _ & _ & Hfirst & Hsecond).
  - reflexivity.
  - reflexivity.
  - split; [exact Hfirst | exact Hsecond].
Defined.

(** C4: when the poll returns the details [d], [update] stores them and sets
    [_attr_available] to true exactly when [d] holds the string "connected"
    under "connectivityState"; any other entry, or none, gives false. *)
Theorem update_success_available (w : World) (d : gmap key value) :
  get_appliance_details (_client (self w)) (requests w) (_appliance (self w)) = Ok d →
  (update w).1 = Ok ()
  ∧ _details (self (update w).2) = Some d
  ∧ (_attr_available (self (update w).2) = true ↔
       d !! StrKey "connectivityState" = Some (Str "connected"))
  ∧ (d !! StrKey "connectivityState" ≠ Some (Str "connected") →
       _attr_available (self (update w).2) = false).
Proof.
  intros Hget. rewrite (update_success w d Hget). simpl.
  assert (Hiff : bool_decide (dict_get d "connectivityState" = Str "connected") = true ↔
                 d !! StrKey "connectivityState" = Some (Str "connected")).
  { rewrite bool_decide_eq_true. unfold dict_get.
    destruct (d !! StrKey "connectivityState") as [v|]; simpl; [|done].
    split; congruence. }
  repeat split; try apply Hiff.
  intros Hne. apply not_true_is_false. by rewrite Hiff.
Qed.

Lemma update_success_available_witness :
  _attr_available (self (update (world_of reachable None false)).2) = true.
Proof.
  apply (update_success_available (world_of reachable None false) sample_details).
  - reflexivity.
  - vm_compute. reflexivity.
Defined.

(** ** set_fan_mode *)

Lemma set_fan_mode_unknown (fan_mode : value) (w : World) :
  HA_TO_FRIGIDAIRE_FAN_MODE !! fan_mode = None → set_fan_mode fan_mode w = (Ok (), w).
Proof. intros H. unfold set_fan_mode. by rewrite H. Qed.

Lemma set_fan_mode_known (fan_mode : value) (speed : FanSpeed.t) (w : World) :
  HA_TO_FRIGIDAIRE_FAN_MODE !! fan_mode = Some speed →
  set_fan_mode fan_mode w =
    (execute_action (_client (self w)) (requests w) (_appliance (self w))
       (Action.set_fan_speed speed),
     sent w [ExecuteAction (_appliance (self w)) (Action.set_fan_speed speed)]).
Proof. intros H. unfold set_fan_mode. by rewrite H. Qed.

Lemma fan_tokens (fan_mode : value) :
  fan_mode ∈ [Str FAN_AUTO; Str FAN_LOW; Str FAN_MEDIUM; Str FAN_HIGH] ↔
  is_Some (HA_TO_FRIGIDAIRE_FAN_MODE !! fan_mode).
Proof.
  rewrite !elem_of_cons, elem_of_nil. unfold is_Some.
  setoid_rewrite HA_TO_FRIGIDAIRE_FAN_MODE_Some.
  unfold FAN_AUTO, FAN_LOW, FAN_MEDIUM, FAN_HIGH. split.
  - intros [->|[->|[->|[->|[]]]]]; eauto 10.
  - intros [s [[-> _]|[[-> _]|[[-> _]|[-> _]]]]]; auto.
Qed.

(** C5: a token other than auto, low, medium and high is no key of
    [HA_TO_FRIGIDAIRE_FAN_MODE], and [set_fan_mode] then returns normally
    without a request to the client; for one of the four tokens it sends
    exactly one request, [set_fan_speed] of the speed the table gives. *)
Theorem set_fan_mode_guard (fan_mode : value) (w : World) :
  let client := _client (self w) in
  let appliance := _appliance (self w) in
  (fan_mode ∉ [Str FAN_AUTO; Str FAN_LOW; Str FAN_MEDIUM; Str FAN_HIGH] →
     HA_TO_FRIGIDAIRE_FAN_MODE !! fan_mode = None
     ∧ set_fan_mode fan_mode w = (Ok (), w))
  ∧ (fan_mode ∈ [Str FAN_AUTO; Str FAN_LOW; Str FAN_MEDIUM; Str FAN_HIGH] →
     ∃ speed,
       HA_TO_FRIGIDAIRE_FAN_MODE !! fan_mode = Some speed
       ∧ set_fan_mode fan_mode w =
           (execute_action client (requests w) appliance (Action.set_fan_speed speed),
            sent w [ExecuteAction appliance (Action.set_fan_speed speed)])).
Proof.
  intros client appliance. split.
  - intros Hout. rewrite fan_tokens in Hout.
    apply eq_None_not_Some in Hout.
    split; [done | by apply set_fan_mode_unknown].
  - intros Hin. apply fan_tokens in Hin as [speed Hspeed].
    exists speed. split; [done | by apply set_fan_mode_known].
Qed.

Lemma set_fan_mode_guard_witness :
  set_fan_mode (Str "invalid_token") (world_of reachable (Some sample_details) true)
    = (Ok (), world_of reachable (Some sample_details) true)
  ∧ ∃ speed,
      HA_TO_FRIGIDAIRE_FAN_MODE !! Str "medium" = Some speed
      ∧ set_fan_mode (Str "medium") (world_of reachable (Some sample_details) true) =
          (Ok (), sent (world_of reachable (Some sample_details) true)
                     [ExecuteAction living_room (Action.set_fan_speed speed)]).
Proof.
  split.
  - apply (set_fan_mode_guard (Str "invalid_token")
             (world_of reachable (Some sample_details) true)).
    rewrite !elem_of_cons, elem_of_nil. intros [H|[H|[H|[H|[]]]]]; discriminate H.
  - apply (set_fan_mode_guard (Str "medium")
             (world_of reachable (Some sample_details) true)).
    rewrite !elem_of_cons. right. right. left. reflexivity.
Defined.

(** ** Round trips through the tables *)

Lemma set_hvac_mode_unknown (hvac_mode : value) (w : World) :
  HA_TO_FRIGIDAIRE_HVAC_MODE !! hvac_mode = None → set_hvac_mode hvac_mode w = (Ok (), w).
Proof.
  intros H. unfold set_hvac_mode.
  rewrite bool_decide_eq_false_2.
  - by rewrite H.
  - intros ->. vm_compute in H. discriminate H.
Qed.

(** C7: every remote mode that [FRIGIDAIRE_TO_HA_MODE] translates is given back
    by [HA_TO_FRIGIDAIRE_HVAC_MODE], and every remote fan speed that
    [FRIGIDAIRE_TO_HA_FAN_SPEED] translates is given back by
    [HA_TO_FRIGIDAIRE_FAN_MODE]; in particular eco goes to auto and back to
    eco.  A token outside a platform-to-remote table makes [set_fan_mode] and
    [set_hvac_mode] return normally with the world as it was. *)
Theorem tables_round_trip :
  (∀ x y, FRIGIDAIRE_TO_HA_MODE !! x = Some y →
     ∃ x', HA_TO_FRIGIDAIRE_HVAC_MODE !! Str y = Some x' ∧ ModeMember x' = x)
  ∧ (∀ x y, FRIGIDAIRE_TO_HA_FAN_SPEED !! x = Some y →
     ∃ x', HA_TO_FRIGIDAIRE_FAN_MODE !! Str y = Some x' ∧ FanSpeedMember x' = x)
  ∧ (FRIGIDAIRE_TO_HA_MODE !! ModeMember Mode.ECO = Some HVAC_MODE_AUTO
     ∧ HA_TO_FRIGIDAIRE_HVAC_MODE !! Str HVAC_MODE_AUTO = Some Mode.ECO)
  ∧ (∀ k w, HA_TO_FRIGIDAIRE_FAN_MODE !! k = None → set_fan_mode k w = (Ok (), w))
  ∧ (∀ k w, HA_TO_FRIGIDAIRE_HVAC_MODE !! k = None → set_hvac_mode k w = (Ok (), w)).
Proof.
  split; [|split; [|split; [|split]]].
  - intros x y. rewrite FRIGIDAIRE_TO_HA_MODE_Some.
    intros [[-> ->]|[[-> ->]|[[-> ->]|[-> ->]]]]; eexists; (split; [by vm_compute|done]).
  - intros x y. rewrite FRIGIDAIRE_TO_HA_FAN_SPEED_Some.
    intros [[-> ->]|[[-> ->]|[[-> ->]|[-> ->]]]]; eexists; (split; [by vm_compute|done]).
  - split; by vm_compute.
  - intros k w. apply set_fan_mode_unknown.
  - intros k w. apply set_hvac_mode_unknown.
Qed.

Lemma tables_round_trip_witness :
  (∃ x', HA_TO_FRIGIDAIRE_HVAC_MODE !! Str "auto" = Some x' ∧ ModeMember x' = ModeMember Mode.ECO)
  ∧ set_hvac_mode (Str "heat") (world_of reachable (Some sample_details) true)
      = (Ok (), world_of reachable (Some sample_details) true).
Proof.
  destruct tables_round_trip as (Hmode & _ & _ & _ & Hhvac).
  split.
  - apply (Hmode (ModeMember Mode.ECO) "auto"). vm_compute. reflexivity.
  - apply Hhvac. vm_compute. reflexivity.
Defined.

(** ** Read accessors *)

Lemma temperature_unit_run (self : FrigidaireClimate) (d : gmap key value) :
  _details self = Some d →
  temperature_unit self =
    subscript FRIGIDAIRE_TO_HA_UNIT (dict_get d Detail.TEMPERATURE_REPRESENTATION).
Proof. intros Hd. unfold temperature_unit, details_get. by rewrite Hd. Qed.

Lemma temperature_unit_Ok (self : FrigidaireClimate) (d : gmap key value) (unit : string) :
  _details self = Some d →
  temperature_unit self = Ok unit →
  (dict_get d Detail.TEMPERATURE_REPRESENTATION = UnitMember Unit.FAHRENHEIT
   ∧ unit = TEMP_FAHRENHEIT)
  ∨ (dict_get d Detail.TEMPERATURE_REPRESENTATION = UnitMember Unit.CELSIUS
     ∧ unit = TEMP_CELSIUS).
Proof.
  intros Hd. rewrite (temperature_unit_run self d Hd). unfold subscript.
  destruct (FRIGIDAIRE_TO_HA_UNIT !! _) as [u|] eqn:Hu; [|discriminate].
  intros [= <-]. by apply FRIGIDAIRE_TO_HA_UNIT_Some.
Qed.

Lemma temperature_unit_member (self : FrigidaireClimate) (d : gmap key value) (u : Unit.t) :
  _details self = Some d →
  dict_get d Detail.TEMPERATURE_REPRESENTATION = UnitMember u →
  temperature_unit self =
    Ok (match u with Unit.FAHRENHEIT => TEMP_FAHRENHEIT | Unit.CELSIUS => TEMP_CELSIUS end).
Proof.
  intros Hd Hu. rewrite (temperature_unit_run self d Hd), Hu. by destruct u.
Qed.

Lemma temperatures_member (self : FrigidaireClimate) (d : gmap key value) (u : Unit.t) :
  _details self = Some d →
  dict_get d Detail.TEMPERATURE_REPRESENTATION = UnitMember u →
  target_temperature self =
    Ok (dict_get d match u with
                   | Unit.FAHRENHEIT => Detail.TARGET_TEMPERATURE_F
                   | Unit.CELSIUS => Detail.TARGET_TEMPERATURE_C
                   end)
  ∧ current_temperature self =
      Ok (dict_get d match u with
                     | Unit.FAHRENHEIT => Detail.AMBIENT_TEMPERATURE_F
                     | Unit.CELSIUS => Detail.AMBIENT_TEMPERATURE_C
                     end).
Proof.
  intros Hd Hu. unfold target_temperature, current_temperature.
  rewrite (temperature_unit_member self d u Hd Hu).
  unfold details_get. rewrite Hd. by destruct u.
Qed.

(** C8: take two snapshots that agree on every entry but the unit, the first
    in Fahrenheit.  [target_temperature] and [current_temperature] return the
    first snapshot's Fahrenheit entries; and whenever [temperature_unit]
    returns another unit for the second snapshot, they return its Celsius
    entries, which are those of the first snapshot too: the unit entry alone
    decides which entries are read. *)
Theorem temperatures_follow_unit (s1 s2 : FrigidaireClimate) (d1 d2 : gmap key value) :
  _details s1 = Some d1 →
  _details s2 = Some d2 →
  (∀ k : key, k ≠ DetailKey Detail.TEMPERATURE_REPRESENTATION → d1 !! k = d2 !! k) →
  dict_get d1 Detail.TEMPERATURE_REPRESENTATION = UnitMember Unit.FAHRENHEIT →
  (target_temperature s1 = Ok (dict_get d1 Detail.TARGET_TEMPERATURE_F)
   ∧ current_temperature s1 = Ok (dict_get d1 Detail.AMBIENT_TEMPERATURE_F))
  ∧ (∀ unit, temperature_unit s2 = Ok unit → unit ≠ TEMP_FAHRENHEIT →
       target_temperature s2 = Ok (dict_get d2 Detail.TARGET_TEMPERATURE_C)
       ∧ current_temperature s2 = Ok (dict_get d2 Detail.AMBIENT_TEMPERATURE_C)
       ∧ dict_get d2 Detail.TARGET_TEMPERATURE_C = dict_get d1 Detail.TARGET_TEMPERATURE_C
       ∧ dict_get d2 Detail.AMBIENT_TEMPERATURE_C = dict_get d1 Detail.AMBIENT_TEMPERATURE_C).
Proof.
  intros Hd1 Hd2 Hagree Hf. split.
  - exact (temperatures_member s1 d1 Unit.FAHRENHEIT Hd1 Hf).
  - intros unit Hunit Hne.
    destruct (temperature_unit_Ok s2 d2 unit Hd2 Hunit) as [[_ ->]|[Hc _]]; [done|].
    destruct (temperatures_member s2 d2 Unit.CELSIUS Hd2 Hc) as [-> ->].
    unfold dict_get. by rewrite !Hagree.
Qed.

Lemma temperatures_follow_unit_witness :
  target_temperature (self (world_of reachable (Some sample_details) true)) = Ok (Num (Int 72))
  ∧ target_temperature
      (self (world_of reachable
               (Some (<[DetailKey Detail.TEMPERATURE_REPRESENTATION := UnitMember Unit.CELSIUS]>
                        sample_details)) true)) = Ok (Num (Int 22)).
Proof.
  destruct (temperatures_follow_unit
              (self (world_of reachable (Some sample_details) true))
              (self (world_of reachable
                       (Some (<[DetailKey Detail.TEMPERATURE_REPRESENTATION
                                  := UnitMember Unit.CELSIUS]> sample_details)) true))
              sample_details
              (<[DetailKey Detail.TEMPERATURE_REPRESENTATION := UnitMember Unit.CELSIUS]>
                 sample_details))
    as [[H1 _] H2].
  - reflexivity.
  - reflexivity.
  - intros k Hk. symmetry. apply lookup_insert_ne. congruence.
  - vm_compute. reflexivity.
  - destruct (H2 TEMP_CELSIUS) as (H & _).
    + vm_compute. reflexivity.
    + discriminate.
    + split; [exact H1 | exact H].
Defined.

(** C10: [temperature_unit] and [hvac_mode] raise [KeyError] when the
    snapshot's unit or mode is no key of their table, and [fan_mode] does when
    the fan speed is truthy and no key of its table; each returns a value
    when its entry is a key of the table (or, for [fan_mode], falsy). *)
Theorem accessors_raise_outside_tables (self : FrigidaireClimate) (d : gmap key value) :
  _details self = Some d →
  let unit := dict_get d Detail.TEMPERATURE_REPRESENTATION in
  let mode := dict_get d Detail.MODE in
  let fan_speed := dict_get d Detail.FAN_SPEED in
  (FRIGIDAIRE_TO_HA_UNIT !! unit = None → temperature_unit self = Raise (KeyError unit))
  ∧ (FRIGIDAIRE_TO_HA_MODE !! mode = None → hvac_mode self = Raise (KeyError mode))
  ∧ (truthy fan_speed = true → FRIGIDAIRE_TO_HA_FAN_SPEED !! fan_speed = None →
     fan_mode self = Raise (KeyError fan_speed))
  ∧ (∀ u, FRIGIDAIRE_TO_HA_UNIT !! unit = Some u → temperature_unit self = Ok u)
  ∧ (∀ m, FRIGIDAIRE_TO_HA_MODE !! mode = Some m → hvac_mode self = Ok m)
  ∧ (∀ s, FRIGIDAIRE_TO_HA_FAN_SPEED !! fan_speed = Some s → fan_mode self = Ok s)
  ∧ (truthy fan_speed = false → fan_mode self = Ok FAN_OFF).
Proof.
  intros Hd unit mode fan_speed.
  unfold temperature_unit, hvac_mode, fan_mode, details_get. rewrite Hd.
  unfold mbind, result_bind, subscript. fold unit mode fan_speed.
  repeat split.
  - by intros ->.
  - by intros ->.
  - by intros -> ->.
  - by intros u ->.
  - by intros m ->.
  - intros s Hs. rewrite Hs.
    apply FRIGIDAIRE_TO_HA_FAN_SPEED_Some in Hs.
    by destruct Hs as [[-> _]|[[-> _]|[[-> _]|[-> _]]]].
  - by intros ->.
Qed.

Lemma accessors_raise_outside_tables_witness :
  temperature_unit (self (world_of reachable (Some ∅) true)) = Raise (KeyError PyNone)
  ∧ hvac_mode (self (world_of reachable (Some {[DetailKey Detail.MODE := Str "DRY"]}) true))
      = Raise (KeyError (Str "DRY"))
  ∧ fan_mode (self (world_of reachable (Some {[DetailKey Detail.FAN_SPEED := Num (Int 9)]}) true))
      = Raise (KeyError (Num (Int 9))).
Proof.
  split; [|split].
  - destruct (accessors_raise_outside_tables
                (self (world_of reachable (Some ∅) true)) ∅ eq_refl) as (H & _).
    apply H. vm_compute. reflexivity.
  - destruct (accessors_raise_outside_tables
                (self (world_of reachable (Some {[DetailKey Detail.MODE := Str "DRY"]}) true))
                {[DetailKey Detail.MODE := Str "DRY"]} eq_refl) as (_ & H & _).
    apply H. vm_compute. reflexivity.
  - destruct (accessors_raise_outside_tables
                (self (world_of reachable
                         (Some {[DetailKey Detail.FAN_SPEED := Num (Int 9)]}) true))
                {[DetailKey Detail.FAN_SPEED := Num (Int 9)]} eq_refl) as (_ & _ & H & _).
    apply H; vm_compute; reflexivity.
Defined.

(** ** set_temperature *)

Lemma shiftl_quot (m : positive) (e : Z) :
  Z.shiftl (Z.pos m) e = (Z.pos m * 2 ^ Z.max e 0) ÷ 2 ^ Z.max (- e) 0.
Proof.
  destruct (Z.le_gt_cases 0 e) as [He|He].
  - rewrite Z.shiftl_mul_pow2 by done.
    rewrite (Z.max_l e 0), (Z.max_r (- e) 0) by lia.
    by rewrite Z.pow_0_r, Z.quot_1_r.
  - rewrite <- (Z.opp_involutive e) at 1.
    rewrite Z.shiftl_opp_r, Z.shiftr_div_pow2 by lia.
    rewrite (Z.max_r e 0), (Z.max_l (- e) 0) by lia.
    rewrite Z.pow_0_r, Z.mul_1_r.
    symmetry. apply Z.quot_div_nonneg; [lia|]. apply Z.pow_pos_nonneg; lia.
Qed.

Lemma py_int_truncates (x : number) (n k : Z) :
  fraction x = Some (n, k) → 0 < k ∧ py_int x = Ok (n ÷ k).
Proof.
  destruct x as [z|[s|s| |s m e]]; simpl; intros [= <- <-]; try done.
  - by rewrite Z.quot_1_r.
  - assert (Hk : 0 < 2 ^ Z.max (- e) 0) by (apply Z.pow_pos_nonneg; lia).
    split; [done|]. rewrite shiftl_quot.
    destruct s; [|done].
    rewrite Z.quot_opp_l by lia. done.
Qed.

Example py_int_72_9 : py_int (Float (S754_finite false 5130482632725299 (-46))) = Ok 72.
Proof. reflexivity. Qed.

Example py_int_neg_2_5 : py_int (Float (S754_finite true 5 (-1))) = Ok (-2).
Proof. reflexivity. Qed.

Lemma set_temperature_none (kwargs : gmap string (option number)) (w : World) :
  kwargs_get kwargs ATTR_TEMPERATURE = None → set_temperature kwargs w = (Ok (), w).
Proof. intros H. unfold set_temperature. by rewrite H. Qed.

Lemma set_temperature_run (kwargs : gmap string (option number)) (w : World)
    (x : number) (t : Z) (d : gmap key value) (u : Unit.t) :
  kwargs_get kwargs ATTR_TEMPERATURE = Some x →
  py_int x = Ok t →
  _details (self w) = Some d →
  dict_get d Detail.TEMPERATURE_REPRESENTATION = UnitMember u →
  let action := match u with
                | Unit.FAHRENHEIT => Action.set_temperature_f t
                | Unit.CELSIUS => Action.set_temperature_c t
                end in
  let via := match u with
             | Unit.FAHRENHEIT => "set_temperature_f"
             | Unit.CELSIUS => "set_temperature_c"
             end in
  set_temperature kwargs w =
    (execute_action (_client (self w)) (requests w) (_appliance (self w)) action,
     {| self := self w;
        requests := requests w ++ [ExecuteAction (_appliance (self w)) action];
        records := records w ++
                   [(DEBUG, "Setting temperature to int(" ++ pretty t ++ ") via " ++ via)] |}).
Proof.
  intros Hx Ht Hd Hu. unfold set_temperature. rewrite Hx.
  unfold mbind, M_bind, lift, get_self. rewrite Ht.
  rewrite (temperature_unit_member (self w) d u Hd Hu).
  by destruct u.
Qed.

(** C6: without a temperature among the keyword arguments, [set_temperature]
    returns normally and sends nothing.  With a finite number, it sends the
    client exactly one request: the number cut towards zero to an integer, in
    [set_temperature_f] when the snapshot's unit is Fahrenheit and in
    [set_temperature_c] when it is Celsius. *)
Theorem set_temperature_calls (kwargs : gmap string (option number)) (w : World) :
  let client := _client (self w) in
  let appliance := _appliance (self w) in
  (kwargs_get kwargs ATTR_TEMPERATURE = None → set_temperature kwargs w = (Ok (), w))
  ∧ (∀ x n k d u,
       kwargs_get kwargs ATTR_TEMPERATURE = Some x →
       fraction x = Some (n, k) →
       _details (self w) = Some d →
       dict_get d Detail.TEMPERATURE_REPRESENTATION = UnitMember u →
       let action := match u with
                     | Unit.FAHRENHEIT => Action.set_temperature_f (n ÷ k)
                     | Unit.CELSIUS => Action.set_temperature_c (n ÷ k)
                     end in
       (set_temperature kwargs w).1 = execute_action client (requests w) appliance action
       ∧ requests (set_temperature kwargs w).2
           = (requests w ++ [ExecuteAction appliance action])%list
       ∧ self (set_temperature kwargs w).2 = self w).
Proof.
  intros client appliance. split; [apply set_temperature_none|].
  intros x n k d u Hx Hfrac Hd Hu action.
  apply py_int_truncates in Hfrac as [_ Ht].
  by rewrite (set_temperature_run kwargs w x (n ÷ k) d u Hx Ht Hd Hu).
Qed.

Lemma set_temperature_calls_witness :
  set_temperature ∅ (world_of reachable (Some sample_details) true)
    = (Ok (), world_of reachable (Some sample_details) true)
  ∧ requests (set_temperature
                {[ATTR_TEMPERATURE := Some (Float (S754_finite false 5130482632725299 (-46)))]}
                (world_of reachable (Some sample_details) true)).2
    = [ExecuteAction living_room (Action.set_temperature_f 72)].
Proof.
  split.
  - apply (set_temperature_calls ∅ (world_of reachable (Some sample_details) true)).
    reflexivity.
  - destruct (set_temperature_calls
                {[ATTR_TEMPERATURE := Some (Float (S754_finite false 5130482632725299 (-46)))]}
                (world_of reachable (Some sample_details) true)) as [_ H].
    destruct (H (Float (S754_finite false 5130482632725299 (-46)))
                5130482632725299 (2 ^ 46) sample_details Unit.FAHRENHEIT)
      as (_ & Hreq & _).
    + reflexivity.
    + reflexivity.
    + reflexivity.
    + vm_compute. reflexivity.
    + exact Hreq.
Defined.

(** ** Failed polls keep the snapshot *)

Lemma readings_details (s1 s2 : FrigidaireClimate) :
  _details s1 = _details s2 → readings s1 = readings s2.
Proof.
  intros H.
  unfold readings, target_temperature, current_temperature, min_temp, max_temp,
    temperature_unit, hvac_mode, fan_mode, extra_state_attributes, details_get.
  by rewrite H.
Qed.

Lemma poll_failures (n : nat) (w : World) :
  (∀ k, (k < n)%nat →
     get_appliance_details (_client (self w))
       (requests w ++ replicate k (GetApplianceDetails (_appliance (self w))))
       (_appliance (self w)) = Raise FrigidaireException) →
  (poll n w).1 = Ok ()
  ∧ _details (self (poll n w).2) = _details (self w)
  ∧ _client (self (poll n w).2) = _client (self w)
  ∧ _appliance (self (poll n w).2) = _appliance (self w)
  ∧ ((0 < n)%nat → _attr_available (self (poll n w).2) = false).
Proof.
  revert w. induction n as [|n IH]; intros w Hdown.
  - simpl. repeat split; auto. lia.
  - assert (Hfirst := Hdown 0%nat ltac:(lia)).
    simpl in Hfirst. rewrite app_nil_r in Hfirst.
    pose proof (update_failure w Hfirst) as Hu.
    change (poll (S n) w) with ((update ≫= λ _, poll n) w).
    rewrite (bind_ok _ _ _ _ _ Hu).
    set (w1 := {| self := _ |}).
    destruct (IH w1) as (Hok & Hd & Hc & Ha & Hav).
    { intros k Hk. subst w1. simpl.
      rewrite <- app_assoc. apply (Hdown (S k)). lia. }
    rewrite Hok, Hd, Hc, Ha. repeat split; try done.
    intros _. destruct n as [|n]; [done|]. apply Hav. lia.
Qed.

(** C9: while the client raises its exception on each of [n] polls in a row,
    every [update] returns normally and the stored snapshot stays as it was,
    so all read accessors return after the polls what they returned before,
    though [_attr_available] is false once a poll has failed. *)
Theorem failed_polls_keep_snapshot (n : nat) (w : World) :
  (∀ k, (k < n)%nat →
     get_appliance_details (_client (self w))
       (requests w ++ replicate k (GetApplianceDetails (_appliance (self w))))
       (_appliance (self w)) = Raise FrigidaireException) →
  (poll n w).1 = Ok ()
  ∧ _details (self (poll n w).2) = _details (self w)
  ∧ readings (self (poll n w).2) = readings (self w)
  ∧ ((0 < n)%nat → _attr_available (self (poll n w).2) = false).
Proof.
  intros Hdown.
  destruct (poll_failures n w Hdown) as (Hok & Hd & _ & _ & Hav).
  repeat split; try done. by apply readings_details.
Qed.

Lemma failed_polls_keep_snapshot_witness :
  readings (self (poll 2 (world_of unreachable (Some sample_details) true)).2)
    = readings (self (world_of unreachable (Some sample_details) true))
  ∧ _attr_available (self (poll 2 (world_of unreachable (Some sample_details) true)).2)
    = false.
Proof.
  destruct (failed_polls_keep_snapshot 2 (world_of unreachable (Some sample_details) true))
    as (_ & _ & Hread & Hav).
  - intros k Hk. reflexivity.
  - split; [exact Hread | apply Hav; lia].
Defined.

Example sample_readings :
  readings (self (world_of unreachable (Some sample_details) true)) =
    (Ok "°F", Ok (Num (Int 72)), Ok "off", Ok (Num (Int 75)), Ok "low", Ok 60, Ok 90,
     Ok {[ "check_filter" := Bool false ]}).
Proof. vm_compute. reflexivity. Qed.

(** * Further properties *)

(** ** Accessors *)

(** X1: when [min_temp] and [max_temp] both return, they are 60 and 90 with a
    Fahrenheit unit, or 16 and 32 with a Celsius unit; the minimum is below
    the maximum either way. *)
Theorem temperature_bounds_by_unit (self : FrigidaireClimate) (lo hi : Z) :
  min_temp self = Ok lo →
  max_temp self = Ok hi →
  lo < hi
  ∧ ((temperature_unit self = Ok TEMP_FAHRENHEIT ∧ lo = 60 ∧ hi = 90)
     ∨ (temperature_unit self = Ok TEMP_CELSIUS ∧ lo = 16 ∧ hi = 32)).
Proof.
  unfold min_temp, max_temp.
  destruct (temperature_unit self) as [unit|e] eqn:Hunit; simpl; [|discriminate].
  destruct (_details self) as [d|] eqn:Hd.
  - destruct (temperature_unit_Ok self d unit Hd Hunit) as [[_ ->]|[_ ->]];
      simpl; intros [= <-] [= <-]; split; try lia; auto.
  - unfold temperature_unit, details_get in Hunit. rewrite Hd in Hunit. discriminate.
Qed.

Lemma temperature_bounds_by_unit_witness :
  16 < 32
  ∧ ((temperature_unit
        (self (world_of reachable
                 (Some {[DetailKey Detail.TEMPERATURE_REPRESENTATION := UnitMember Unit.CELSIUS]})
                 true)) = Ok TEMP_FAHRENHEIT ∧ 16 = 60 ∧ 32 = 90)
     ∨ (temperature_unit
          (self (world_of reachable
                   (Some {[DetailKey Detail.TEMPERATURE_REPRESENTATION := UnitMember Unit.CELSIUS]})
                   true)) = Ok TEMP_CELSIUS ∧ 16 = 16 ∧ 32 = 32)).
Proof.
  apply (temperature_bounds_by_unit
           (self (world_of reachable
                    (Some {[DetailKey Detail.TEMPERATURE_REPRESENTATION := UnitMember Unit.CELSIUS]})
                    true)) 16 32); reflexivity.
Defined.

(** X2: an exception raised by [temperature_unit] (no snapshot, or a unit
    outside the table) is raised as it is by [target_temperature],
    [current_temperature], [min_temp] and [max_temp]. *)
Theorem unit_error_reaches_dependents (self : FrigidaireClimate) (e : exn) :
  temperature_unit self = Raise e →
  target_temperature self = Raise e
  ∧ current_temperature self = Raise e
  ∧ min_temp self = Raise e
  ∧ max_temp self = Raise e.
Proof.
  intros H. unfold target_temperature, current_temperature, min_temp, max_temp.
  by rewrite H.
Qed.

Lemma unit_error_reaches_dependents_witness :
  target_temperature (self (world_of reachable (Some ∅) true)) = Raise (KeyError PyNone)
  ∧ current_temperature (self (world_of reachable (Some ∅) true)) = Raise (KeyError PyNone)
  ∧ min_temp (self (world_of reachable (Some ∅) true)) = Raise (KeyError PyNone)
  ∧ max_temp (self (world_of reachable (Some ∅) true)) = Raise (KeyError PyNone).
Proof.
  apply (unit_error_reaches_dependents (self (world_of reachable (Some ∅) true))).
  reflexivity.
Defined.

(** X3: with a snapshot, [extra_state_attributes] returns a mapping with the
    single key "check_filter", whose value is true exactly when the snapshot
    holds the string "CHANGE" as filter state; an absent entry gives false. *)
Theorem check_filter_iff_change (self : FrigidaireClimate) (d : gmap key value) :
  _details self = Some d →
  ∃ b : bool,
    extra_state_attributes self = Ok {[ "check_filter" := Bool b ]}
    ∧ (b = true ↔ d !! DetailKey Detail.FILTER_STATE = Some (Str "CHANGE")).
Proof.
  intros Hd. unfold extra_state_attributes, details_get. rewrite Hd. simpl.
  eexists. split; [reflexivity|].
  rewrite bool_decide_eq_true. unfold dict_get.
  destruct (d !! DetailKey Detail.FILTER_STATE) as [v|]; simpl; [|done].
  split; congruence.
Qed.

Lemma check_filter_iff_change_witness :
  ∃ b : bool,
    extra_state_attributes (self (world_of reachable (Some sample_details) true))
      = Ok {[ "check_filter" := Bool b ]}
    ∧ (b = true ↔ sample_details !! DetailKey Detail.FILTER_STATE = Some (Str "CHANGE")).
Proof.
  apply (check_filter_iff_change (self (world_of reachable (Some sample_details) true))
           sample_details).
  reflexivity.
Defined.

(** X4: as long as no poll has succeeded there is no snapshot: on an entity
    fresh from the constructor, and after any number of polls that failed
    with the client's exception, each of the eight read accessors raises
    [AttributeError]; the entity counts as available until the first
    failure. *)
Theorem accessors_before_first_snapshot (client : Frigidaire) (appliance : Appliance)
    (n : nat) :
  let fresh := {| self := __init__ client appliance; requests := []; records := [] |} in
  (∀ k, (k < n)%nat →
     get_appliance_details client (replicate k (GetApplianceDetails appliance)) appliance
       = Raise FrigidaireException) →
  readings (self (poll n fresh).2) =
    (Raise AttributeError, Raise AttributeError, Raise AttributeError,
     Raise AttributeError, Raise AttributeError, Raise AttributeError,
     Raise AttributeError, Raise AttributeError)
  ∧ available (self (poll n fresh).2) = bool_decide (n = 0%nat).
Proof.
  intros fresh Hdown.
  destruct (poll_failures n fresh Hdown) as (_ & Hd & _ & _ & Hav).
  split.
  - by rewrite (readings_details _ (__init__ client appliance) Hd).
  - destruct n as [|n]; [done|].
    unfold available. rewrite Hav by lia. by rewrite bool_decide_eq_false_2.
Qed.

Lemma accessors_before_first_snapshot_witness :
  hvac_mode
    (self (poll 2 {| self := __init__ unreachable living_room;
                     requests := []; records := [] |}).2) = Raise AttributeError
  ∧ available
      (self (poll 2 {| self := __init__ unreachable living_room;
                       requests := []; records := [] |}).2) = false.
Proof.
  destruct (accessors_before_first_snapshot unreachable living_room 2) as [Hread Hav].
  - intros k Hk. reflexivity.
  - split; [|exact Hav].
    exact (f_equal (λ r, r.1.1.1.1.1.2) Hread).
Defined.

(** X5: the hvac modes that the constructor advertises are exactly the keys
    of [HA_TO_FRIGIDAIRE_HVAC_MODE], and whatever [hvac_mode] returns is one
    of them. *)
Theorem hvac_modes_advertised (appliance : Appliance) (self : FrigidaireClimate) :
  (∀ token : string,
     token ∈ hvac_modes (init_attributes appliance) ↔
     is_Some (HA_TO_FRIGIDAIRE_HVAC_MODE !! Str token))
  ∧ (∀ mode, hvac_mode self = Ok mode → mode ∈ hvac_modes (init_attributes appliance)).
Proof.
  split.
  - intros token. unfold hvac_modes, init_attributes. simpl.
    rewrite !elem_of_cons, elem_of_nil. unfold is_Some.
    setoid_rewrite HA_TO_FRIGIDAIRE_HVAC_MODE_Some.
    unfold HVAC_MODE_OFF, HVAC_MODE_COOL, HVAC_MODE_AUTO, HVAC_MODE_FAN_ONLY. split.
    + intros [->|[->|[->|[->|[]]]]]; eauto 10.
    + intros [m [[[= ->] _]|[[[= ->] _]|[[[= ->] _]|[[= ->] _]]]]]; auto.
  - intros mode. unfold hvac_mode.
    destruct (details_get self Detail.MODE) as [v|]; simpl; [|discriminate].
    unfold subscript. destruct (FRIGIDAIRE_TO_HA_MODE !! v) as [m|] eqn:Hm; [|discriminate].
    intros [= <-]. apply FRIGIDAIRE_TO_HA_MODE_Some in Hm.
    unfold hvac_modes, init_attributes. simpl. rewrite !elem_of_cons.
    destruct Hm as [[_ ->]|[[_ ->]|[[_ ->]|[_ ->]]]]; auto.
Qed.

(** X6: the fan modes that the constructor advertises are exactly the keys of
    [HA_TO_FRIGIDAIRE_FAN_MODE]; [fan_mode] returns one of them or [FAN_OFF],
    and [FAN_OFF] is not advertised: [set_fan_mode] ignores it. *)
Theorem fan_modes_advertised (appliance : Appliance) (self : FrigidaireClimate) (w : World) :
  (∀ token : string,
     token ∈ fan_modes (init_attributes appliance) ↔
     is_Some (HA_TO_FRIGIDAIRE_FAN_MODE !! Str token))
  ∧ (∀ mode, fan_mode self = Ok mode →
       mode = FAN_OFF ∨ mode ∈ fan_modes (init_attributes appliance))
  ∧ (FAN_OFF ∉ fan_modes (init_attributes appliance))
  ∧ set_fan_mode (Str FAN_OFF) w = (Ok (), w).
Proof.
  split; [|split; [|split]].
  - intros token. rewrite <- fan_tokens.
    unfold fan_modes, init_attributes. simpl.
    rewrite !elem_of_cons, !elem_of_nil. split.
    + intros [->|[->|[->|[->|[]]]]]; auto.
    + intros [[= ->]|[[= ->]|[[= ->]|[[= ->]|[]]]]]; auto.
  - intros mode. unfold fan_mode.
    destruct (details_get self Detail.FAN_SPEED) as [v|]; simpl; [|discriminate].
    destruct (truthy v); simpl.
    + unfold subscript.
      destruct (FRIGIDAIRE_TO_HA_FAN_SPEED !! v) as [m|] eqn:Hm; [|discriminate].
      intros [= <-]. apply FRIGIDAIRE_TO_HA_FAN_SPEED_Some in Hm. right.
      unfold fan_modes, init_attributes. simpl. rewrite !elem_of_cons.
      destruct Hm as [[_ ->]|[[_ ->]|[[_ ->]|[_ ->]]]]; auto.
    + intros [= <-]. by left.
  - unfold fan_modes, init_attributes. simpl.
    rewrite !elem_of_cons, elem_of_nil. intros [H|[H|[H|[H|[]]]]]; discriminate H.
  - apply set_fan_mode_unknown. by vm_compute.
Qed.

(** ** Tables and read-back *)

(** X7: translating a platform token to the remote vocabulary and back gives
    the token again, for every key of [HA_TO_FRIGIDAIRE_HVAC_MODE] and of
    [HA_TO_FRIGIDAIRE_FAN_MODE]; so no two tokens share a remote value. *)
Theorem tables_reverse_round_trip :
  (∀ token mode, HA_TO_FRIGIDAIRE_HVAC_MODE !! token = Some mode →
     ∃ s, FRIGIDAIRE_TO_HA_MODE !! ModeMember mode = Some s ∧ Str s = token)
  ∧ (∀ token speed, HA_TO_FRIGIDAIRE_FAN_MODE !! token = Some speed →
     ∃ s, FRIGIDAIRE_TO_HA_FAN_SPEED !! FanSpeedMember speed = Some s ∧ Str s = token)
  ∧ (∀ t1 t2 mode, HA_TO_FRIGIDAIRE_HVAC_MODE !! t1 = Some mode →
       HA_TO_FRIGIDAIRE_HVAC_MODE !! t2 = Some mode → t1 = t2)
  ∧ (∀ t1 t2 speed, HA_TO_FRIGIDAIRE_FAN_MODE !! t1 = Some speed →
       HA_TO_FRIGIDAIRE_FAN_MODE !! t2 = Some speed → t1 = t2).
Proof.
  assert (Hmode : ∀ token mode, HA_TO_FRIGIDAIRE_HVAC_MODE !! token = Some mode →
     ∃ s, FRIGIDAIRE_TO_HA_MODE !! ModeMember mode = Some s ∧ Str s = token).
  { intros token mode. rewrite HA_TO_FRIGIDAIRE_HVAC_MODE_Some.
    intros [[-> ->]|[[-> ->]|[[-> ->]|[-> ->]]]]; eexists; (split; [by vm_compute|done]). }
  assert (Hfan : ∀ token speed, HA_TO_FRIGIDAIRE_FAN_MODE !! token = Some speed →
     ∃ s, FRIGIDAIRE_TO_HA_FAN_SPEED !! FanSpeedMember speed = Some s ∧ Str s = token).
  { intros token speed. rewrite HA_TO_FRIGIDAIRE_FAN_MODE_Some.
    intros [[-> ->]|[[-> ->]|[[-> ->]|[-> ->]]]]; eexists; (split; [by vm_compute|done]). }
  repeat split; auto.
  - intros t1 t2 mode H1 H2.
    destruct (Hmode _ _ H1) as (s1 & Hs1 & <-).
    destruct (Hmode _ _ H2) as (s2 & Hs2 & <-). congruence.
  - intros t1 t2 speed H1 H2.
    destruct (Hfan _ _ H1) as (s1 & Hs1 & <-).
    destruct (Hfan _ _ H2) as (s2 & Hs2 & <-). congruence.
Qed.

(** X8: what a command sends is read back as the token it was given: if
    [set_hvac_mode] translates a token to a mode, [hvac_mode] returns that
    token on any snapshot reporting the mode, and likewise [set_fan_mode] and
    [fan_mode] for fan speeds. *)
Theorem commands_read_back (self : FrigidaireClimate) (d : gmap key value) (token : string) :
  _details self = Some d →
  (∀ mode, HA_TO_FRIGIDAIRE_HVAC_MODE !! Str token = Some mode →
     dict_get d Detail.MODE = ModeMember mode → hvac_mode self = Ok token)
  ∧ (∀ speed, HA_TO_FRIGIDAIRE_FAN_MODE !! Str token = Some speed →
     dict_get d Detail.FAN_SPEED = FanSpeedMember speed → fan_mode self = Ok token).
Proof.
  intros Hd. unfold hvac_mode, fan_mode, details_get. rewrite Hd. simpl. split.
  - intros mode Hmode ->.
    apply HA_TO_FRIGIDAIRE_HVAC_MODE_Some in Hmode.
    destruct Hmode as [[[= ->] ->]|[[[= ->] ->]|[[[= ->] ->]|[[= ->] ->]]]]; by vm_compute.
  - intros speed Hspeed ->.
    apply HA_TO_FRIGIDAIRE_FAN_MODE_Some in Hspeed.
    destruct Hspeed as [[[= ->] ->]|[[[= ->] ->]|[[[= ->] ->]|[[= ->] ->]]]]; by vm_compute.
Qed.

Lemma commands_read_back_witness :
  hvac_mode (self (world_of reachable
                     (Some {[DetailKey Detail.MODE := ModeMember Mode.ECO]}) true)) = Ok "auto".
Proof.
  destruct (commands_read_back
              (self (world_of reachable
                       (Some {[DetailKey Detail.MODE := ModeMember Mode.ECO]}) true))
              {[DetailKey Detail.MODE := ModeMember Mode.ECO]} "auto" eq_refl) as [H _].
  apply (H Mode.ECO); vm_compute; reflexivity.
Defined.

(** ** Commands *)

Ltac run_command :=
  unfold set_hvac_mode, set_fan_mode, set_temperature, mbind, M_bind, mret, M_ret,
    lift, get_self, call_execute_action, emit;
  simpl;
  repeat (case_match; simpl; simplify_eq).

(** X9: no command assigns an attribute of the entity: after [set_fan_mode],
    [set_hvac_mode] or [set_temperature], whether it returned or raised, the
    snapshot and [_attr_available] are as before; the first two emit no log
    record either. *)
Theorem commands_keep_entity (w : World) (token : value)
    (kwargs : gmap string (option number)) :
  self (set_fan_mode token w).2 = self w
  ∧ records (set_fan_mode token w).2 = records w
  ∧ self (set_hvac_mode token w).2 = self w
  ∧ records (set_hvac_mode token w).2 = records w
  ∧ self (set_temperature kwargs w).2 = self w.
Proof. repeat split; run_command; done. Qed.

(** X10: a command only ever adds [execute_action] requests for the entity's
    own appliance, never a poll: at most three for [set_hvac_mode], at most
    one for [set_fan_mode] and for [set_temperature]. *)
Theorem commands_send_own_actions (w : World) (token : value)
    (kwargs : gmap string (option number)) :
  let own := λ n (w' : World),
    ∃ actions : list Action.t,
      (length actions ≤ n)%nat
      ∧ requests w' = (requests w ++ (ExecuteAction (_appliance (self w)) <$> actions))%list in
  own 3%nat (set_hvac_mode token w).2
  ∧ own 1%nat (set_fan_mode token w).2
  ∧ own 1%nat (set_temperature kwargs w).2.
Proof.
  intros own. subst own. simpl.
  repeat split; run_command;
    first
      [ by (exists []; split; [simpl; lia | by rewrite app_nil_r])
      | by (eexists [_]; split; [simpl; lia | reflexivity])
      | by (eexists [_; _]; split; [simpl; lia | by rewrite <- !app_assoc])
      | by (eexists [_; _; _]; split; [simpl; lia | by rewrite <- !app_assoc]) ].
Qed.

(** X11: [set_hvac_mode] passes the client's answers on.  With the snapshot's
    mode off, a rejected [set_power(ON)] ends the call after that one
    request, and a rejected [set_temperature] ends it after two: [set_mode] is
    not sent.  With another snapshot mode, the call returns what the client
    answers to [set_mode]. *)
Theorem set_hvac_mode_client_answers (token : value) (mode : Mode.t) (w : World)
    (d : gmap key value) :
  HA_TO_FRIGIDAIRE_HVAC_MODE !! token = Some mode →
  token ≠ Str HVAC_MODE_OFF →
  _details (self w) = Some d →
  let client := _client (self w) in
  let appliance := _appliance (self w) in
  let on := ExecuteAction appliance (Action.set_power Power.ON) in
  (dict_get d Detail.MODE = ModeMember Mode.OFF →
     (∀ e, execute_action client (requests w) appliance (Action.set_power Power.ON) = Raise e →
        set_hvac_mode token w = (Raise e, sent w [on]))
     ∧ (∀ e temperature,
          execute_action client (requests w) appliance (Action.set_power Power.ON) = Ok () →
          target_temperature (self w) = Ok temperature →
          execute_action client (requests w ++ [on]) appliance
            (Action.set_temperature temperature) = Raise e →
          set_hvac_mode token w =
            (Raise e,
             sent w [on; ExecuteAction appliance (Action.set_temperature temperature)])))
  ∧ (dict_get d Detail.MODE ≠ ModeMember Mode.OFF →
       set_hvac_mode token w =
         (execute_action client (requests w) appliance (Action.set_mode mode),
          sent w [ExecuteAction appliance (Action.set_mode mode)])).
Proof.
  intros Hmode Hoff Hd client appliance on.
  unfold set_hvac_mode.
  rewrite bool_decide_eq_false_2 by done. rewrite Hmode.
  unfold mbind, M_bind, get_self, lift, details_get. rewrite Hd.
  split; [intros Hcur; split|intros Hcur].
  - intros e Hon. rewrite bool_decide_eq_true_2 by done.
    rewrite call_execute_action_run. fold client appliance. by rewrite Hon.
  - intros e temperature Hon Htemp Hrej. rewrite bool_decide_eq_true_2 by done.
    rewrite call_execute_action_run. fold client appliance. rewrite Hon, Htemp.
    rewrite call_execute_action_run. simpl. fold client appliance on. rewrite Hrej.
    by rewrite sent_sent.
  - rewrite bool_decide_eq_false_2 by done. unfold mret, M_ret.
    by rewrite call_execute_action_run.
Qed.

Lemma set_hvac_mode_client_answers_witness :
  set_hvac_mode (Str "cool") (world_of unreachable (Some sample_details) true) =
    (Raise FrigidaireException,
     sent (world_of unreachable (Some sample_details) true)
       [ExecuteAction living_room (Action.set_power Power.ON)]).
Proof.
  destruct (set_hvac_mode_client_answers (Str "cool") Mode.COOL
              (world_of unreachable (Some sample_details) true) sample_details)
    as [H _].
  - vm_compute. reflexivity.
  - discriminate.
  - reflexivity.
  - destruct H as [H _].
    + vm_compute. reflexivity.
    + apply H. reflexivity.
Defined.

(** X12: with the snapshot's mode off, [set_hvac_mode] sends [set_power(ON)]
    before it reads the target temperature: if that read raises (the unit is
    outside the table) and the client has accepted the power-on, the call
    raises the same exception with the power-on as its only request. *)
Theorem set_hvac_mode_unreadable_target (token : value) (mode : Mode.t) (w : World)
    (d : gmap key value) (e : exn) :
  HA_TO_FRIGIDAIRE_HVAC_MODE !! token = Some mode →
  token ≠ Str HVAC_MODE_OFF →
  _details (self w) = Some d →
  dict_get d Detail.MODE = ModeMember Mode.OFF →
  execute_action (_client (self w)) (requests w) (_appliance (self w))
    (Action.set_power Power.ON) = Ok () →
  target_temperature (self w) = Raise e →
  set_hvac_mode token w =
    (Raise e, sent w [ExecuteAction (_appliance (self w)) (Action.set_power Power.ON)]).
Proof.
  intros Hmode Hoff Hd Hcur Hon Htemp.
  unfold set_hvac_mode.
  rewrite bool_decide_eq_false_2 by done. rewrite Hmode.
  unfold mbind, M_bind, get_self, lift, details_get. rewrite Hd.
  rewrite bool_decide_eq_true_2 by done.
  rewrite call_execute_action_run, Hon. by rewrite Htemp.
Qed.

Lemma set_hvac_mode_unreadable_target_witness :
  set_hvac_mode (Str "cool")
    (world_of reachable (Some {[DetailKey Detail.MODE := ModeMember Mode.OFF]}) true) =
    (Raise (KeyError PyNone),
     sent (world_of reachable (Some {[DetailKey Detail.MODE := ModeMember Mode.OFF]}) true)
       [ExecuteAction living_room (Action.set_power Power.ON)]).
Proof.
  apply (set_hvac_mode_unreadable_target (Str "cool") Mode.COOL
           (world_of reachable (Some {[DetailKey Detail.MODE := ModeMember Mode.OFF]}) true)
           {[DetailKey Detail.MODE := ModeMember Mode.OFF]} (KeyError PyNone)).
  - vm_compute. reflexivity.
  - discriminate.
  - reflexivity.
  - vm_compute. reflexivity.
  - reflexivity.
  - vm_compute. reflexivity.
Defined.

(** X13: before the first poll there is no snapshot: [set_hvac_mode] with a
    recognized mode other than off, and [set_temperature] with a finite
    number, raise [AttributeError] and send nothing. *)
Theorem commands_without_snapshot (token : value) (mode : Mode.t)
    (kwargs : gmap string (option number)) (x : number) (t : Z) (w : World) :
  _details (self w) = None →
  (HA_TO_FRIGIDAIRE_HVAC_MODE !! token = Some mode → token ≠ Str HVAC_MODE_OFF →
     set_hvac_mode token w = (Raise AttributeError, w))
  ∧ (kwargs_get kwargs ATTR_TEMPERATURE = Some x → py_int x = Ok t →
     set_temperature kwargs w = (Raise AttributeError, w)).
Proof.
  intros Hd. split.
  - intros Hmode Hoff. unfold set_hvac_mode.
    rewrite bool_decide_eq_false_2 by done. rewrite Hmode.
    unfold mbind, M_bind, get_self, lift, details_get. by rewrite Hd.
  - intros Hx Ht. unfold set_temperature. rewrite Hx.
    unfold mbind, M_bind, get_self, lift. rewrite Ht.
    unfold temperature_unit, details_get. by rewrite Hd.
Qed.

Lemma commands_without_snapshot_witness :
  set_hvac_mode (Str "cool") (world_of reachable None true)
    = (Raise AttributeError, world_of reachable None true)
  ∧ set_temperature {[ATTR_TEMPERATURE := Some (Int 70)]} (world_of reachable None true)
    = (Raise AttributeError, world_of reachable None true).
Proof.
  destruct (commands_without_snapshot (Str "cool") Mode.COOL
              {[ATTR_TEMPERATURE := Some (Int 70)]} (Int 70) 70
              (world_of reachable None true) eq_refl) as [H1 H2].
  split.
  - apply H1; [vm_compute; reflexivity | discriminate].
  - apply H2; reflexivity.
Defined.

(** X14: [set_temperature] raises before it logs or sends anything when the
    number is not finite ([ValueError] for a NaN, [OverflowError] for an
    infinity) or when [temperature_unit] raises. *)
Theorem set_temperature_raises_early (kwargs : gmap string (option number)) (x : number)
    (w : World) :
  kwargs_get kwargs ATTR_TEMPERATURE = Some x →
  (x = Float S754_nan → set_temperature kwargs w = (Raise ValueError, w))
  ∧ (∀ s, x = Float (S754_infinity s) → set_temperature kwargs w = (Raise OverflowError, w))
  ∧ (∀ t e, py_int x = Ok t → temperature_unit (self w) = Raise e →
       set_temperature kwargs w = (Raise e, w)).
Proof.
  intros Hx. unfold set_temperature. rewrite Hx.
  unfold mbind, M_bind, get_self, lift. repeat split.
  - by intros ->.
  - by intros s ->.
  - intros t e Ht He. by rewrite Ht, He.
Qed.

Lemma set_temperature_raises_early_witness :
  set_temperature {[ATTR_TEMPERATURE := Some (Float S754_nan)]}
    (world_of reachable (Some sample_details) true)
    = (Raise ValueError, world_of reachable (Some sample_details) true).
Proof.
  destruct (set_temperature_raises_early {[ATTR_TEMPERATURE := Some (Float S754_nan)]}
              (Float S754_nan) (world_of reachable (Some sample_details) true))
    as [H _].
  - reflexivity.
  - apply H. reflexivity.
Defined.

(** X15: [int] never rounds away from zero: the integer it gives for a finite
    number has the number's sign (or is zero) and its magnitude is the
    greatest integer not above the number's magnitude. *)
Theorem py_int_toward_zero (x : number) (n k t : Z) :
  fraction x = Some (n, k) →
  py_int x = Ok t →
  (0 ≤ t * n)%Z
  ∧ (Z.abs t * k ≤ Z.abs n < (Z.abs t + 1) * k)%Z.
Proof.
  intros Hfrac Ht. apply py_int_truncates in Hfrac as [Hk Hq].
  rewrite Hq in Ht. injection Ht as <-.
  split.
  - destruct (Z.le_gt_cases 0 n) as [Hn|Hn].
    + apply Z.mul_nonneg_nonneg; [|done]. apply Z.quot_pos; lia.
    + assert (0 ≤ (- n) ÷ k)%Z as H by (apply Z.quot_pos; lia).
      rewrite Z.quot_opp_l in H by lia. nia.
  - assert (Habs : Z.abs (n ÷ k) = Z.abs n / k).
    { rewrite <- Z.quot_abs by lia. rewrite (Z.abs_eq k) by lia.
      apply Z.quot_div_nonneg; lia. }
    rewrite Habs.
    pose proof (Z.mul_div_le (Z.abs n) k Hk).
    pose proof (Z.mul_succ_div_gt (Z.abs n) k Hk). lia.
Qed.

Lemma py_int_toward_zero_witness :
  (0 ≤ (-2) * (-5))%Z
  ∧ (Z.abs (-2) * 2 ^ 1 ≤ Z.abs (-5) < (Z.abs (-2) + 1) * 2 ^ 1)%Z.
Proof.
  apply (py_int_toward_zero (Float (S754_finite true 5 (-1))) (-5) (2 ^ 1) (-2));
    reflexivity.
Defined.

(** ** Polling *)

Lemma update_other_exception (w : World) (e : exn) :
  get_appliance_details (_client (self w)) (requests w) (_appliance (self w)) = Raise e →
  e ≠ FrigidaireException →
  update w = (Raise e, sent w [GetApplianceDetails (_appliance (self w))]).
Proof.
  intros Hget He.
  unfold update, try_except_else, mbind, M_bind, get_self, call_get_appliance_details.
  rewrite Hget. by rewrite bool_decide_eq_false_2.
Qed.

(** X16: an exception of the client other than [FrigidaireException] passes
    through [update]: the call raises it, and the snapshot, [_attr_available]
    and the log stay as they were, so the entity may still count as
    available. *)
Theorem update_unexpected_exception (w : World) (e : exn) :
  get_appliance_details (_client (self w)) (requests w) (_appliance (self w)) = Raise e →
  e ≠ FrigidaireException →
  (update w).1 = Raise e
  ∧ self (update w).2 = self w
  ∧ records (update w).2 = records w.
Proof.
  intros Hget He. by rewrite (update_other_exception w e Hget He).
Qed.

Lemma update_unexpected_exception_witness :
  (update (world_of {| get_appliance_details := λ _ _, Raise ValueError;
                       execute_action := λ _ _ _, Ok () |} None true)).1
    = Raise ValueError
  ∧ self (update (world_of {| get_appliance_details := λ _ _, Raise ValueError;
                              execute_action := λ _ _ _, Ok () |} None true)).2
    = self (world_of {| get_appliance_details := λ _ _, Raise ValueError;
                        execute_action := λ _ _ _, Ok () |} None true)
  ∧ records (update (world_of {| get_appliance_details := λ _ _, Raise ValueError;
                                 execute_action := λ _ _ _, Ok () |} None true)).2
    = [].
Proof.
  apply (update_unexpected_exception
           (world_of {| get_appliance_details := λ _ _, Raise ValueError;
                        execute_action := λ _ _ _, Ok () |} None true) ValueError).
  - reflexivity.
  - discriminate.
Defined.

(** X17: whatever the client answers, [update] makes exactly one request,
    [get_appliance_details] for the entity's appliance, and keeps the
    entity's client and appliance. *)
Theorem update_polls_once (w : World) :
  requests (update w).2 = (requests w ++ [GetApplianceDetails (_appliance (self w))])%list
  ∧ _client (self (update w).2) = _client (self w)
  ∧ _appliance (self (update w).2) = _appliance (self w).
Proof.
  destruct (get_appliance_details (_client (self w)) (requests w) (_appliance (self w)))
    as [d|e] eqn:Hget.
  - by rewrite (update_success w d Hget).
  - destruct (decide (e = FrigidaireException)) as [->|He].
    + by rewrite (update_failure w Hget).
    + by rewrite (update_other_exception w e Hget He).
Qed.

(** X18: [update] emits a record in one case only: the client raised
    [FrigidaireException] and the entity was available.  Then it emits the
    one error record; in every other case the log is left as it was. *)
Theorem update_error_record_iff (w : World) :
  let reply :=
    get_appliance_details (_client (self w)) (requests w) (_appliance (self w)) in
  (reply = Raise FrigidaireException ∧ available (self w) = true →
     records (update w).2 =
       (records w ++ [(ERROR, "Failed to connect to Frigidaire servers")])%list)
  ∧ (¬ (reply = Raise FrigidaireException ∧ available (self w) = true) →
       records (update w).2 = records w).
Proof.
  intros reply. split.
  - intros [Hget Hav]. rewrite (update_failure w Hget). simpl. by rewrite Hav.
  - intros Hnot. destruct reply as [d|e] eqn:Hget; subst reply.
    + by rewrite (update_success w d Hget).
    + destruct (decide (e = FrigidaireException)) as [->|He].
      * rewrite (update_failure w Hget). simpl.
        destruct (available (self w)); [by destruct Hnot | by rewrite app_nil_r].
      * by rewrite (update_other_exception w e Hget He).
Qed.

Lemma update_error_record_iff_witness :
  records (update (world_of unreachable None false)).2 = [].
Proof.
  apply (update_error_record_iff (world_of unreachable None false)).
  intros [_ H]. discriminate H.
Defined.

(** X19: over any number of failed polls in a row, the error is logged once
    if the entity was available at the start and not at all otherwise, and
    the client receives one request for each poll. *)
Theorem failed_polls_log_once (n : nat) (w : World) :
  (∀ k, (k < n)%nat →
     get_appliance_details (_client (self w))
       (requests w ++ replicate k (GetApplianceDetails (_appliance (self w))))
       (_appliance (self w)) = Raise FrigidaireException) →
  records (poll n w).2 =
    (records w ++
     if available (self w) && bool_decide (0 < n)%nat
     then [(ERROR, "Failed to connect to Frigidaire servers")]
     else [])%list
  ∧ requests (poll n w).2 =
      (requests w ++ replicate n (GetApplianceDetails (_appliance (self w))))%list.
Proof.
  revert w. induction n as [|n IH]; intros w Hdown.
  - simpl. rewrite andb_false_r. by rewrite !app_nil_r.
  - assert (Hfirst := Hdown 0%nat ltac:(lia)).
    simpl in Hfirst. rewrite app_nil_r in Hfirst.
    pose proof (update_failure w Hfirst) as Hu.
    change (poll (S n) w) with ((update ≫= λ _, poll n) w).
    rewrite (bind_ok _ _ _ _ _ Hu).
    set (w1 := {| self := _ |}).
    destruct (IH w1) as [Hrec Hreq].
    { intros k Hk. subst w1. simpl.
      rewrite <- app_assoc. apply (Hdown (S k)). lia. }
    rewrite Hrec, Hreq. subst w1. simpl.
    by rewrite app_nil_r, <- app_assoc, andb_true_r.
Qed.

Lemma failed_polls_log_once_witness :
  records (poll 3 (world_of unreachable None true)).2
    = [(ERROR, "Failed to connect to Frigidaire servers")]
  ∧ requests (poll 3 (world_of unreachable None true)).2
    = replicate 3 (GetApplianceDetails living_room).
Proof.
  apply (failed_polls_log_once 3 (world_of unreachable None true)).
  intros k Hk. reflexivity.
Defined.

(** X20: a successful poll followed by a failed one.  The failure is logged
    exactly when the successful poll reported the state "connected",
    whatever the availability before the two polls; and the snapshot of the
    successful poll is still held afterwards. *)
Theorem failure_after_success (w : World) (d : gmap key value) :
  let client := _client (self w) in
  let appliance := _appliance (self w) in
  get_appliance_details client (requests w) appliance = Ok d →
  get_appliance_details client (requests w ++ [GetApplianceDetails appliance]) appliance
    = Raise FrigidaireException →
  let w2 := (update (update w).2).2 in
  _details (self w2) = Some d
  ∧ _attr_available (self w2) = false
  ∧ records w2 =
      (records w ++
       if bool_decide (dict_get d "connectivityState" = Str "connected")
       then [(ERROR, "Failed to connect to Frigidaire servers")]
       else [])%list.
Proof.
  intros client appliance H1 H2 w2. subst w2.
  rewrite (update_success w d H1). simpl.
  by rewrite update_failure.
Qed.

Lemma failure_after_success_witness :
  records (update (update (world_of
             {| get_appliance_details := λ history _,
                  match history with
                  | [] => Ok sample_details
                  | _ => Raise FrigidaireException
                  end;
                execute_action := λ _ _ _, Ok () |} None false)).2).2
    = [(ERROR, "Failed to connect to Frigidaire servers")].
Proof.
  apply (failure_after_success
           (world_of
              {| get_appliance_details := λ history _,
                   match history with
                   | [] => Ok sample_details
                   | _ => Raise FrigidaireException
                   end;
                 execute_action := λ _ _ _, Ok () |} None false) sample_details);
    reflexivity.
Defined.

(** ** Set-up *)

(** X21: when the entry's client and credentials are found and the client
    lists its appliances, [async_setup_entry] hands over one entity for each
    listed air conditioner, in listing order, and none for another
    destination; each entity holds the entry's client, has no snapshot yet
    and is available. *)
Theorem setup_adapts_air_conditioners (DOMAIN : string)
    (hass_data : gmap string (gmap string Frigidaire)) (entry : ConfigEntry)
    (domain_data : gmap string Frigidaire) (client : Frigidaire)
    (username password : value) (listing : list Listed) :
  hass_data !! DOMAIN = Some domain_data →
  domain_data !! entry_id entry = Some client →
  data entry !! "username" = Some username →
  data entry !! "password" = Some password →
  ∃ entities,
    async_setup_entry DOMAIN hass_data entry (Ok listing) = Ok entities
    ∧ _appliance <$> entities =
        identity <$> filter (λ a, destination a = Destination.AIR_CONDITIONER) listing
    ∧ Forall (λ e, _client e = client ∧ _details e = None ∧ available e = true) entities.
Proof.
  intros Hdomain Hclient Huser Hpass.
  unfold async_setup_entry, subscript_str.
  rewrite Hdomain. simpl. rewrite Hclient. simpl.
  rewrite Huser. simpl. rewrite Hpass. simpl.
  eexists. split; [reflexivity|]. split.
  - rewrite <- list_fmap_compose. by apply list_fmap_ext.
  - apply Forall_fmap, Forall_true. by intros a.
Qed.

Lemma setup_adapts_air_conditioners_witness :
  ∃ entities,
    async_setup_entry "frigidaire" {[ "frigidaire" := {[ "e1" := reachable ]} ]}
      sample_entry (Ok sample_listing) = Ok entities
    ∧ _appliance <$> entities =
        identity <$> filter (λ a, destination a = Destination.AIR_CONDITIONER) sample_listing
    ∧ Forall (λ e, _client e = reachable ∧ _details e = None ∧ available e = true) entities.
Proof.
  apply (setup_adapts_air_conditioners "frigidaire"
           {[ "frigidaire" := {[ "e1" := reachable ]} ]} sample_entry
           {[ "e1" := reachable ]} reachable (Str "user@example.org") (Str "secret")
           sample_listing); reflexivity.
Defined.

Example sample_setup :
  _appliance <$> default []
    (match async_setup_entry "frigidaire" {[ "frigidaire" := {[ "e1" := reachable ]} ]}
             sample_entry (Ok sample_listing) with
     | Ok entities => Some entities
     | Raise _ => None
     end) = [living_room].
Proof. vm_compute. reflexivity. Qed.

(** X22: [async_setup_entry] raises [KeyError] when [hass.data] has no entry
    for the domain or for the config entry, and when the entry's data lack
    "username" or "password", although the listing does not use the
    credentials; an exception of the listing is raised as it is.  No entity
    is handed over in any of these cases. *)
Theorem setup_errors (DOMAIN : string) (hass_data : gmap string (gmap string Frigidaire))
    (entry : ConfigEntry) (listing : result (list Listed)) :
  let setup := async_setup_entry DOMAIN hass_data entry listing in
  (hass_data !! DOMAIN = None → setup = Raise (KeyError (Str DOMAIN)))
  ∧ (∀ domain_data, hass_data !! DOMAIN = Some domain_data →
       (domain_data !! entry_id entry = None →
          setup = Raise (KeyError (Str (entry_id entry))))
       ∧ (is_Some (domain_data !! entry_id entry) →
            (data entry !! "username" = None → setup = Raise (KeyError (Str "username")))
            ∧ (is_Some (data entry !! "username") →
                 (data entry !! "password" = None →
                    setup = Raise (KeyError (Str "password")))
                 ∧ (is_Some (data entry !! "password") →
                      ∀ e, listing = Raise e → setup = Raise e)))).
Proof.
  intros setup. subst setup. unfold async_setup_entry, subscript_str. split.
  - by intros ->.
  - intros domain_data ->. simpl. split; [by intros ->|].
    intros [client ->]. simpl. split; [by intros ->|].
    intros [username ->]. simpl. split; [by intros ->|].
    intros [password ->]. simpl. by intros e ->.
Qed.

Lemma setup_errors_witness :
  async_setup_entry "frigidaire" {[ "frigidaire" := {[ "e1" := reachable ]} ]}
    {| entry_id := "e1"; data := {[ "password" := Str "secret" ]} |} (Ok sample_listing)
    = Raise (KeyError (Str "username")).
Proof.
  destruct (setup_errors "frigidaire" {[ "frigidaire" := {[ "e1" := reachable ]} ]}
              {| entry_id := "e1"; data := {[ "password" := Str "secret" ]} |}
              (Ok sample_listing)) as [_ H].
  destruct (H {[ "e1" := reachable ]}) as [_ H'].
  - reflexivity.
  - destruct H' as [H'' _].
    + exists reachable. reflexivity.
    + apply H''. reflexivity.
Defined.
